(** * CreateClone.py: cloning and cleaning up VMs over the Acropolis REST API

    A shallow embedding of [src/CreateClone.py] (Python 2) and the proofs of
    the properties its specification states.

    Modelling choices, all visible in the definitions below:
    - decoded JSON is the inductive type [value]; a JSON object is a Python
      [dict], modelled as a [gmap string value] (finite map, no order, no
      duplicate keys, extensional equality like Python's [==] on dicts);
    - Python's [str] and [unicode] are both Rocq's [string]; text is taken
      to be ASCII, where the two coincide;
    - a Python exception is a value of [exn]; pure code that may raise
      returns a [result], code that talks to the cluster is a function of
      the requests sent so far and returns an [outcome] with the new list;
    - the cluster is a function from the requests received so far (oldest
      first) to its reply to the newest one, which covers every
      deterministic server;
    - [while True] takes a step budget (fuel) and [OutOfFuel] marks a run
      the budget cut short;
    - library code ([urllib.urlencode], [json.dumps], [str] and [repr] of
      arbitrary objects) is the class [PyLib], a parameter of the program;
    - console output ([print]) and the clock ([time.strftime]) are left
      out: no property below speaks of them. *)

From Stdlib Require Import ZArith String Ascii Floats DecimalString DecimalZ
  DecimalPos.
From stdpp Require Import gmap strings list fin_maps list_numbers.

Local Open Scope Z_scope.

(** ** Decoded JSON *)

#[local] Set Warnings "-register-all".

Inductive value :=
| VNone
| VBool (b : bool)
| VInt (n : Z)
| VFloat (x : float)
| VStr (s : string)
| VList (l : list value)
| VDict (d : gmap string value).

(** ** Exceptions and results *)

(** [Exception msg] is [raise Exception(msg)]; the others are the
    exceptions the interpreter and the libraries raise themselves. *)
Inductive exn :=
| Exception (msg : string)
| AssertionError
| KeyError
| IndexError
| TypeError
| AttributeError
| ValueError
| RequestException.

Inductive result (A : Type) :=
| Ok (a : A)
| Err (e : exn).
Arguments Ok {A} a.
Arguments Err {A} e.

Definition rbind {A B} (m : result A) (k : A -> result B) : result B :=
  match m with
  | Ok a => k a
  | Err e => Err e
  end.

Declare Scope result_scope.
Delimit Scope result_scope with result.
Notation "x <~ m ; k" := (rbind m (fun x => k))
  (at level 100, m at next level, right associativity) : result_scope.

(** ** The Python operations the script applies to decoded JSON *)

Module Py.

(** [bool(v)]: [None], [False], zero, and the empty string, list and dict
    are falsy. *)
Definition truthy (v : value) : bool :=
  match v with
  | VNone => false
  | VBool b => b
  | VInt n => negb (n =? 0)
  | VFloat x => negb (PrimFloat.eqb x 0%float)
  | VStr s => negb (String.eqb s EmptyString)
  | VList l => negb (Nat.eqb (length l) 0)
  | VDict d => negb (Nat.eqb (size d) 0)
  end.

(** [v[key]] for a [str] key. *)
Definition getitem (v : value) (key : string) : result value :=
  match v with
  | VDict d => match d !! key with
               | Some x => Ok x
               | None => Err KeyError
               end
  | _ => Err TypeError
  end.

(** [v[0]]. A decoded JSON object has only string keys, so [0] is never
    one of them. *)
Definition getindex0 (v : value) : result value :=
  match v with
  | VList l => match l with
               | x :: _ => Ok x
               | [] => Err IndexError
               end
  | VStr s => match s with
              | String c _ => Ok (VStr (String c EmptyString))
              | EmptyString => Err IndexError
              end
  | VDict _ => Err KeyError
  | _ => Err TypeError
  end.

(** [v.get(key)]: only a dict has the method; a missing key gives
    [None]. *)
Definition get (v : value) (key : string) : result value :=
  match v with
  | VDict d => Ok (default VNone (d !! key))
  | _ => Err AttributeError
  end.

(** [v is None]. *)
Definition is_None (v : value) : bool :=
  match v with
  | VNone => true
  | _ => false
  end.

(** [v == s] for a [str] literal [s]. *)
Definition eq_str (v : value) (s : string) : bool :=
  match v with
  | VStr s' => String.eqb s' s
  | _ => false
  end.

(** [v == 0]. *)
Definition eq_0 (v : value) : bool :=
  match v with
  | VBool b => negb b
  | VInt n => n =? 0
  | VFloat x => PrimFloat.eqb x 0%float
  | _ => false
  end.

(** [v > 1]. Python 2 orders values of different types: [None] is below
    everything and numbers are below every other object. *)
Definition gt_1 (v : value) : bool :=
  match v with
  | VNone => false
  | VBool _ => false
  | VInt n => 1 <? n
  | VFloat x => PrimFloat.ltb 1%float x
  | VStr _ | VList _ | VDict _ => true
  end.

(** [v + s] for a [str] [s]: only text can be added to text. *)
Definition add_str (v : value) (s : string) : result value :=
  match v with
  | VStr s' => Ok (VStr (s' +:+ s))
  | _ => Err TypeError
  end.

(** [str(i)] for an [int]: its decimal representation. *)
Definition str_int (i : Z) : string :=
  NilZero.string_of_int (Z.to_int i).

(** The last occurrence of [sep] in [s]: the text before it and the text
    after it. *)
Fixpoint split_last (sep : ascii) (s : string) : option (string * string) :=
  match s with
  | EmptyString => None
  | String c t =>
      match split_last sep t with
      | Some (pre, suf) => Some (String c pre, suf)
      | None => if Ascii.eqb c sep then Some (EmptyString, t) else None
      end
  end.

(** [s.rsplit(sep, 1)] for a one-character separator. *)
Definition rsplit1 (s : string) (sep : ascii) : list string :=
  match split_last sep s with
  | Some (pre, suf) => [pre; suf]
  | None => [s]
  end.

(** [v.rsplit(sep, 1)]: a method of text only. *)
Definition rsplit1_value (v : value) (sep : ascii) : result (list string) :=
  match v with
  | VStr s => Ok (rsplit1 s sep)
  | _ => Err AttributeError
  end.

(** [parts[-1]]. *)
Definition getitem_last (parts : list string) : result string :=
  match last parts with
  | Some p => Ok p
  | None => Err IndexError
  end.

(** [range(lo, hi)]. *)
Definition range (lo hi : Z) : list Z := seqZ lo (hi - lo).

End Py.

(** ** Library functions the script calls *)

Class PyLib := {
  (** [urllib.urlencode] of a dict of [str] to [str] *)
  urlencode : list (string * string) -> string;
  (** [json.dumps] *)
  json_dumps : value -> string;
  (** [str(v)], which is what ["%s" % v] inserts *)
  str_value : value -> string;
  (** [repr(s)] of a [str], which is what ["%r" % s] inserts *)
  repr_str : string -> string
}.

(** ** Pruning of empty fields (the nested [strip_dict]) *)

(** What the two comprehensions do with one element [v], given the
    recursive call [rec]: [... if v and strip_dict(v)] keeps
    [strip_dict(v)] when both are truthy. *)
Definition keep_stripped (rec : value -> value) (v : value) : option value :=
  if Py.truthy v && Py.truthy (rec v) then Some (rec v) else None.

Fixpoint strip_dict (d : value) : value :=
  match d with
  | VDict m => VDict (omap (keep_stripped strip_dict) m)
  | VList l => VList (omap (keep_stripped strip_dict) l)
  | _ => d
  end.

Definition _strip_empty_fields (proto_dict : value) : value :=
  strip_dict proto_dict.

(** ** Induction over decoded JSON *)

Fixpoint value_size (v : value) : nat :=
  match v with
  | VList l => S (foldr (fun x n => (value_size x + n)%nat) 0%nat l)
  | VDict m => S (map_fold (fun _ x n => (value_size x + n)%nat) 0%nat m)
  | _ => 1%nat
  end.

(** ** Building the clone request (pure part of the client) *)

(** A [for] loop over a list whose body may raise; the variables the loop
    assigns are the state [St]. *)
Fixpoint for_in {St : Type} (xs : list Z) (body : Z -> St -> result St)
    (s : St) : result St :=
  match xs with
  | [] => Ok s
  | x :: xs' => rbind (body x s) (for_in xs' body)
  end.

(** The dict literal that seeds every clone specification. *)
Definition vm_clone_proto_literal (numVcpus name memoryMb : value)
    : gmap string value :=
  <["numVcpus" := numVcpus]>
  (<["overrideNetworkConfig" := VStr "false"]>
  (<["name" := name]>
  (<["memoryMb" := memoryMb]>
  (<["uuid" := VStr EmptyString]>
  (<["vmNics" := VList []]>
  (<["sourceVMLogicalTimestamp" := VStr EmptyString]> ∅)))))).

(** One turn of the loop of [construct_vm_clone_proto]: it assigns
    [vm_clone_proto["name"]] and appends the pruned copy to [specs]. *)
Definition construct_vm_clone_proto_body (name : value) (i : Z)
    (st : gmap string value * list value)
    : result (gmap string value * list value) :=
  let '(vm_clone_proto, specs) := st in
  (name_dash <~ Py.add_str name "-";
   name_i <~ Py.add_str name_dash (Py.str_int i);
   let vm_clone_proto := <["name" := name_i]> vm_clone_proto in
   Ok (vm_clone_proto, specs ++ [_strip_empty_fields (VDict vm_clone_proto)])
  )%result.

Definition construct_vm_clone_proto (vm_uuid : string) (vm_info : value)
    (num_clones : Z) : result value :=
  (config <~ Py.getitem vm_info "config";
   numVcpus <~ Py.getitem config "numVcpus";
   config <~ Py.getitem vm_info "config";
   name <~ Py.getitem config "name";
   config <~ Py.getitem vm_info "config";
   memoryMb <~ Py.getitem config "memoryMb";
   let vm_clone_proto := vm_clone_proto_literal numVcpus name memoryMb in
   name <~ Py.getitem (VDict vm_clone_proto) "name";
   st <~ for_in (Py.range 0 num_clones) (construct_vm_clone_proto_body name)
                (vm_clone_proto, []);
   Ok (VDict {[ "specList" := VList st.2 ]})
  )%result.

(** ** Talking to the cluster *)

Inductive method := GET | POST | DELETE.

(** One call of [session.get], [session.post] or [session.delete]. *)
Record Request := {
  req_method : method;
  req_url : string;
  req_data : option string
}.

(** What the script reads of a [requests] response: [r.status_code], and
    [r.json()], which is [None] here when the body is not JSON. *)
Record Response := {
  status_code : Z;
  json : option value
}.

(** The cluster's answer to a request: a response, or none ([requests]
    then raises one of its own exceptions). *)
Inductive reply :=
| Responded (r : Response)
| Failed.

(** The cluster, as seen from the script: its answer to the newest request,
    given every request sent so far (oldest first, the newest last). *)
Definition Cluster := list Request -> reply.

(** A run either returns, raises, or is cut short by the step budget. *)
Inductive outcome (A : Type) :=
| Returns (a : A)
| Raises (e : exn)
| OutOfFuel.
Arguments Returns {A} a.
Arguments Raises {A} e.
Arguments OutOfFuel {A}.

(** Code that sends requests: from the requests sent before it to its
    outcome and the requests sent after it. *)
Definition M (A : Type) := list Request -> outcome A * list Request.

Definition ret {A} (a : A) : M A := fun h => (Returns a, h).

Definition raise {A} (e : exn) : M A := fun h => (Raises e, h).

Definition out_of_fuel {A} : M A := fun h => (OutOfFuel, h).

Definition bind {A B} (m : M A) (k : A -> M B) : M B :=
  fun h =>
    match m h with
    | (Returns a, h') => k a h'
    | (Raises e, h') => (Raises e, h')
    | (OutOfFuel, h') => (OutOfFuel, h')
    end.

(** Pure code that may raise, run inside [M]. *)
Definition lift {A} (m : result A) : M A :=
  match m with
  | Ok a => ret a
  | Err e => raise e
  end.

(** [if b: raise e], then go on. *)
Definition raise_if (b : bool) (e : exn) : M unit :=
  if b then raise e else ret tt.

Declare Scope prog_scope.
Delimit Scope prog_scope with prog.
Notation "x <- m ;; k" := (bind m (fun x => k))
  (at level 100, m at next level, right associativity) : prog_scope.
Notation "m ;; k" := (bind m (fun _ => k))
  (at level 100, right associativity) : prog_scope.

(** A [for] loop whose body sends requests. *)
Fixpoint for_each (xs : list Z) (body : Z -> M unit) : M unit :=
  match xs with
  | [] => ret tt
  | x :: xs' => bind (body x) (fun _ => for_each xs' body)
  end.

(** [r.json()]. *)
Definition Response_json (r : Response) : result value :=
  match json r with
  | Some v => Ok v
  | None => Err ValueError
  end.

(** [requests.codes.ok]. *)
Definition codes_ok : Z := 200.

(** ** The client *)

(** [requests.Session] as the script configures it: [headers] are the
    entries the script sets on top of the library's own. *)
Record Session := {
  auth : string * string;
  verify : bool;
  headers : gmap string string
}.

Record RestApiClient := {
  cluster_ip : string;
  username : string;
  password : string;
  base_acro_url : string;
  base_pg_url : string;
  session : Session
}.

(** Building the session sends nothing: it is a value. *)
Definition get_server_session (username password : string) : Session :=
  {| auth := (username, password);
     verify := false;
     headers := {[ "Content-Type" := "application/json; charset=utf-8" ]} |}.

Definition __init__ (cluster_ip username password : string) : RestApiClient :=
  {| cluster_ip := cluster_ip;
     username := username;
     password := password;
     base_acro_url := "https://" +:+ cluster_ip +:+ ":9440/api/nutanix/v0.8";
     base_pg_url :=
       "https://" +:+ cluster_ip +:+ ":9440/PrismGateway/services/rest/v1";
     session := get_server_session username password |}.

Section Client.
Context `{PyLib} (cluster : Cluster).

Local Open Scope prog_scope.

(** The three calls on the session: the request is sent, and the cluster
    answers it knowing all that was sent before. *)
Definition send (req : Request) : M Response :=
  fun h =>
    match cluster (h ++ [req]) with
    | Responded r => (Returns r, h ++ [req])
    | Failed => (Raises RequestException, h ++ [req])
    end.

Definition session_get (url : string) : M Response :=
  send {| req_method := GET; req_url := url; req_data := None |}.

Definition session_post (url data : string) : M Response :=
  send {| req_method := POST; req_url := url; req_data := Some data |}.

Definition session_delete (url : string) : M Response :=
  send {| req_method := DELETE; req_url := url; req_data := None |}.

(** [params] is the dict of query parameters, as its list of items. *)
Definition _url (base path : string) (params : list (string * string))
    : string :=
  match params with
  | _ :: _ => base +:+ "/" +:+ path +:+ "?" +:+ urlencode params
  | [] => base +:+ "/" +:+ path
  end.

Definition acro_url (self : RestApiClient) (path : string)
    (params : list (string * string)) : string :=
  _url (base_acro_url self) path params.

Definition pg_url (self : RestApiClient) (path : string)
    (params : list (string * string)) : string :=
  _url (base_pg_url self) path params.

(** [check_unique] is the int the callers pass (1 or 0), tested for
    truth. *)
Definition resolve_vm_uuid (self : RestApiClient) (vm_name : string)
    (check_unique : Z) : M string :=
  let url := pg_url self "vms" [("filterCriteria", "vm_name==" +:+ vm_name)] in
  r <- session_get url ;;
  raise_if (negb (status_code r =? codes_ok))
    (Exception ("GET " +:+ url +:+ ": " +:+ Py.str_int (status_code r))) ;;
  obj <- lift (Response_json r) ;;
  metadata <- lift (Py.getitem obj "metadata") ;;
  count <- lift (Py.getitem metadata "count") ;;
  (if negb (check_unique =? 0) then
     raise_if (Py.eq_0 count)
       (Exception ("Failed to find VM named " +:+ repr_str vm_name)) ;;
     raise_if (Py.gt_1 count)
       (Exception ("VM name " +:+ repr_str vm_name +:+ " is not unique"))
   else ret tt) ;;
  entities <- lift (Py.getitem obj "entities") ;;
  entity <- lift (Py.getindex0 entities) ;;
  vmId <- lift (Py.getitem entity "vmId") ;;
  parts <- lift (Py.rsplit1_value vmId ":") ;;
  lift (Py.getitem_last parts).

Definition get_vm_info (self : RestApiClient) (vm_uuid : string) : M value :=
  let url := acro_url self ("vms/" +:+ vm_uuid) [] in
  r <- session_get url ;;
  raise_if (negb (status_code r =? codes_ok))
    (Exception ("GET " +:+ url +:+ ": " +:+ Py.str_int (status_code r))) ;;
  lift (Response_json r).

(** The [while True] loop of [poll_task], with at most [fuel] turns. *)
Fixpoint poll_task_loop (fuel : nat) (url : string) (task_uuid : value)
    : M unit :=
  match fuel with
  | O => out_of_fuel
  | S fuel' =>
      r <- session_get url ;;
      raise_if (negb (status_code r =? codes_ok))
        (Exception ("GET " +:+ url +:+ ": " +:+ Py.str_int (status_code r))) ;;
      obj <- lift (Response_json r) ;;
      task_info <- lift (Py.getitem obj "taskInfo") ;;
      mr <- lift (Py.get task_info "metaResponse") ;;
      if Py.is_None mr then poll_task_loop fuel' url task_uuid
      else
        error <- lift (Py.getitem mr "error") ;;
        if Py.eq_str error "kNoError" then ret tt
        else
          error <- lift (Py.getitem mr "error") ;;
          errorDetail <- lift (Py.getitem mr "errorDetail") ;;
          raise (Exception ("Task " +:+ str_value task_uuid +:+ " failed: "
                            +:+ str_value error +:+ ": "
                            +:+ str_value errorDetail))
  end.

Definition poll_task (self : RestApiClient) (fuel : nat) (task_uuid : value)
    : M unit :=
  let url := acro_url self ("tasks/" +:+ str_value task_uuid +:+ "/poll") [] in
  poll_task_loop fuel url task_uuid.

(** [vm_uuid] is text, so [str(vm_uuid)] is [vm_uuid]. *)
Definition create_clones (self : RestApiClient) (fuel : nat)
    (vm_uuid : string) (vm_info : value) (num_clones : Z) : M unit :=
  cloneSpec <- lift (construct_vm_clone_proto vm_uuid vm_info num_clones) ;;
  let url := acro_url self ("vms/" +:+ vm_uuid +:+ "/clone") [] in
  r <- session_post url (json_dumps cloneSpec) ;;
  raise_if (negb (status_code r =? codes_ok))
    (Exception ("POST " +:+ url +:+ ": " +:+ Py.str_int (status_code r))) ;;
  obj <- lift (Response_json r) ;;
  task_uuid <- lift (Py.getitem obj "taskUuid") ;;
  poll_task self fuel task_uuid.

(** One turn of the loop of [cleanup_clones]. *)
Definition cleanup_clones_body (self : RestApiClient) (fuel : nat)
    (vm_name : string) (i : Z) : M unit :=
  let to_be_deleted_vm_name := vm_name +:+ "-" +:+ Py.str_int i in
  to_be_deleted_vm_uuid <- resolve_vm_uuid self to_be_deleted_vm_name 0 ;;
  let url := acro_url self ("vms/" +:+ to_be_deleted_vm_uuid) [] in
  r <- session_delete url ;;
  raise_if (negb (status_code r =? codes_ok))
    (Exception ("DELETE " +:+ url +:+ ": " +:+ Py.str_int (status_code r))) ;;
  obj <- lift (Response_json r) ;;
  task_uuid <- lift (Py.getitem obj "taskUuid") ;;
  poll_task self fuel task_uuid.

Definition cleanup_clones (self : RestApiClient) (fuel : nat)
    (vm_name : string) (num_clones : Z) : M unit :=
  for_each (Py.range 0 num_clones) (cleanup_clones_body self fuel vm_name).

(** ** The command line *)

(** The flags the script reads. [action], [cluster_ip] and [vm_name]
    default to [None]; [username] and [password] default to text and
    [num_clones] to an int, so these three are never [None] (and the
    assertion of [main] on [num_clones] always passes). *)
Record Flags := {
  action : option string;
  flag_cluster_ip : option string;
  flag_username : string;
  flag_password : string;
  vm_name : option string;
  num_clones : Z
}.

Definition clone (FLAGS : Flags) (fuel : nat) (c : RestApiClient) : M unit :=
  match vm_name FLAGS with
  | None => raise AssertionError
  | Some name =>
      vm_uuid <- resolve_vm_uuid c name 1 ;;
      vm_info <- get_vm_info c vm_uuid ;;
      create_clones c fuel vm_uuid vm_info (num_clones FLAGS)
  end.

Definition cleanup (FLAGS : Flags) (fuel : nat) (c : RestApiClient)
    : M unit :=
  match vm_name FLAGS with
  | None => raise AssertionError
  | Some name => cleanup_clones c fuel name (num_clones FLAGS)
  end.

Definition main (FLAGS : Flags) (fuel : nat) : M unit :=
  match action FLAGS with
  | None => raise AssertionError
  | Some act =>
      match flag_cluster_ip FLAGS with
      | None => raise AssertionError
      | Some ip =>
          let c := __init__ ip (flag_username FLAGS) (flag_password FLAGS) in
          if String.eqb act "clone" then clone FLAGS fuel c
          else if String.eqb act "cleanup" then cleanup FLAGS fuel c
          else raise (Exception
                 "Unknown --action; expected 'clone' or 'cleanup'")
      end
  end.

End Client.

(** ** Vocabulary of the statements *)

(** The requests the client sends, by purpose. *)
Section Requests.
Context `{PyLib}.

Definition resolve_request (self : RestApiClient) (vm_name : string)
    : Request :=
  {| req_method := GET;
     req_url := pg_url self "vms" [("filterCriteria", "vm_name==" +:+ vm_name)];
     req_data := None |}.

Definition info_request (self : RestApiClient) (vm_uuid : string) : Request :=
  {| req_method := GET;
     req_url := acro_url self ("vms/" +:+ vm_uuid) [];
     req_data := None |}.

Definition clone_request (self : RestApiClient) (vm_uuid : string)
    (cloneSpec : value) : Request :=
  {| req_method := POST;
     req_url := acro_url self ("vms/" +:+ vm_uuid +:+ "/clone") [];
     req_data := Some (json_dumps cloneSpec) |}.

Definition delete_request (self : RestApiClient) (vm_uuid : string)
    : Request :=
  {| req_method := DELETE;
     req_url := acro_url self ("vms/" +:+ vm_uuid) [];
     req_data := None |}.

Definition poll_request (self : RestApiClient) (task_uuid : value)
    : Request :=
  {| req_method := GET;
     req_url := acro_url self ("tasks/" +:+ str_value task_uuid +:+ "/poll") [];
     req_data := None |}.

(** The exception [poll_task] raises for a failed task. *)
Definition TaskFailedError (task_uuid error errorDetail : value) : exn :=
  Exception ("Task " +:+ str_value task_uuid +:+ " failed: "
             +:+ str_value error +:+ ": " +:+ str_value errorDetail).

(** The exceptions [resolve_vm_uuid] raises when it checks uniqueness. *)
Definition NotFoundError (vm_name : string) : exn :=
  Exception ("Failed to find VM named " +:+ repr_str vm_name).

Definition AmbiguousNameError (vm_name : string) : exn :=
  Exception ("VM name " +:+ repr_str vm_name +:+ " is not unique").

End Requests.

(** The poll responses, by what they say of the task. [metaResponse] is
    the completion field, looked up in the response's [taskInfo]. *)
Definition completion_field (r : Response) : option value :=
  match json r with
  | Some (VDict obj) =>
      match obj !! "taskInfo" with
      | Some (VDict task_info) => task_info !! "metaResponse"
      | _ => None
      end
  | _ => None
  end.

(** A successful response whose [taskInfo] is there and has no completion
    field. *)
Definition omits_completion (r : Response) : Prop :=
  status_code r = codes_ok
  /\ exists obj task_info,
       json r = Some (VDict obj)
       /\ obj !! "taskInfo" = Some (VDict task_info)
       /\ task_info !! "metaResponse" = None.

(** A successful response whose completion field is [mr]. *)
Definition completes_with (r : Response) (mr : value) : Prop :=
  status_code r = codes_ok /\ completion_field r = Some mr.

(** The task is still pending for the client: a successful response whose
    [taskInfo] has no completion field, or has it as [null]. *)
Definition still_pending (rep : reply) : bool :=
  match rep with
  | Responded r =>
      (status_code r =? codes_ok)
      && match json r with
         | Some (VDict obj) =>
             match obj !! "taskInfo" with
             | Some (VDict task_info) =>
                 match task_info !! "metaResponse" with
                 | None | Some VNone => true
                 | Some _ => false
                 end
             | _ => false
             end
         | _ => false
         end
  | Failed => false
  end.

(** The last separator of [s] is right before [suffix]: [suffix] is what
    follows the last [sep], or all of [s] when it has none. *)
Definition suffix_after_last (sep : ascii) (s suffix : string) : Prop :=
  ~ In sep (list_ascii_of_string suffix)
  /\ (s = suffix \/ exists pre, s = pre +:+ String sep suffix).

(** The requests of the two flows, in the order they are sent. *)
Section Flows.
Context `{PyLib} (cluster : Cluster).

(** The task a successful reply to a clone or delete request names:
    [r.json()["taskUuid"]], after the status check. *)
Definition submitted_task (r : Response) : option value :=
  if status_code r =? codes_ok then
    match json r with
    | Some obj =>
        match Py.getitem obj "taskUuid" with
        | Ok task_uuid => Some task_uuid
        | Err _ => None
        end
    | None => None
    end
  else None.

(** The clone flow: one resolution, one descriptor, one clone request,
    then [polls] polls of one task. *)
Definition clone_flow_requests (self : RestApiClient) (vm_name : string)
    (vm_uuid : string) (cloneSpec task_uuid : value) (polls : nat)
    : list Request :=
  [resolve_request self vm_name; info_request self vm_uuid;
   clone_request self vm_uuid cloneSpec]
  ++ replicate polls (poll_request self task_uuid).

(** One turn of the cleanup, for clone [i]: [turn] is the identifier the
    name resolved to, the task the deletion returned, and the number of
    polls of that task. *)
Definition cleanup_turn_requests (self : RestApiClient) (vm_name : string)
    (i : Z) (turn : string * value * nat) : list Request :=
  let '(vm_uuid, task_uuid, polls) := turn in
  [resolve_request self (vm_name +:+ "-" +:+ Py.str_int i);
   delete_request self vm_uuid]
  ++ replicate polls (poll_request self task_uuid).

(** The turns for clones [i], [i + 1], ... one after the other. *)
Fixpoint cleanup_requests (self : RestApiClient) (vm_name : string) (i : Z)
    (turns : list (string * value * nat)) : list Request :=
  match turns with
  | [] => []
  | turn :: turns' =>
      cleanup_turn_requests self vm_name i turn
      ++ cleanup_requests self vm_name (i + 1) turns'
  end.

(** A turn that ran to its end from the requests [h]: the name of clone
    [i] resolved, without the uniqueness check, to [vm_uuid]; the deletion
    of [vm_uuid] was answered with the task [task_uuid]; and polling that
    task returned, after [polls] polls. *)
Definition cleanup_turn_done (self : RestApiClient) (fuel : nat)
    (vm_name : string) (i : Z) (h : list Request)
    (turn : string * value * nat) : Prop :=
  let '(vm_uuid, task_uuid, polls) := turn in
  let name := vm_name +:+ "-" +:+ Py.str_int i in
  let sent := [resolve_request self name; delete_request self vm_uuid] in
  resolve_vm_uuid cluster self name 0 h
  = (Returns vm_uuid, h ++ [resolve_request self name])
  /\ (exists r, cluster (h ++ sent) = Responded r
                /\ submitted_task r = Some task_uuid)
  /\ poll_task cluster self fuel task_uuid (h ++ sent)
     = (Returns tt, h ++ cleanup_turn_requests self vm_name i turn)
  /\ (1 <= polls)%nat.

(** Turns that ran to their ends one after the other, from clone [i]
    on. *)
Fixpoint cleanup_turns_done (self : RestApiClient) (fuel : nat)
    (vm_name : string) (i : Z) (h : list Request)
    (turns : list (string * value * nat)) : Prop :=
  match turns with
  | [] => True
  | turn :: turns' =>
      cleanup_turn_done self fuel vm_name i h turn
      /\ cleanup_turns_done self fuel vm_name (i + 1)
           (h ++ cleanup_turn_requests self vm_name i turn) turns'
  end.

(** A turn that did not run to its end from the requests [h], with the
    outcome [o] and the requests [h']. Either the name of clone [i] did not
    resolve, without the uniqueness check, and the turn stopped there; or
    it resolved to [vm_uuid] and the deletion of [vm_uuid] stopped the
    turn (no answer, an HTTP error, a body that is not JSON or names no
    task); or the deletion was answered with a task and polling that task
    did not return. *)
Definition cleanup_turn_stopped (self : RestApiClient) (fuel : nat)
    (vm_name : string) (i : Z) (h : list Request) (o : outcome unit)
    (h' : list Request) : Prop :=
  let name := vm_name +:+ "-" +:+ Py.str_int i in
  (exists e,
     resolve_vm_uuid cluster self name 0 h = (Raises e, h')
     /\ o = Raises e)
  \/ exists vm_uuid,
       let deletion := delete_request self vm_uuid in
       let sent := [resolve_request self name; deletion] in
       resolve_vm_uuid cluster self name 0 h
       = (Returns vm_uuid, h ++ [resolve_request self name])
       /\ ((cluster (h ++ sent) = Failed
            /\ o = Raises RequestException
            /\ h' = h ++ sent)
           \/ exists r,
                cluster (h ++ sent) = Responded r
                /\ ((status_code r <> codes_ok
                     /\ o = Raises (Exception
                                      ("DELETE " +:+ req_url deletion +:+ ": "
                                       +:+ Py.str_int (status_code r)))
                     /\ h' = h ++ sent)
                    \/ (status_code r = codes_ok
                        /\ (exists e,
                              match json r with
                              | Some obj => Py.getitem obj "taskUuid" = Err e
                              | None => e = ValueError
                              end
                              /\ o = Raises e)
                        /\ h' = h ++ sent)
                    \/ exists task_uuid,
                         submitted_task r = Some task_uuid
                         /\ poll_task cluster self fuel task_uuid (h ++ sent)
                            = (o, h')
                         /\ o <> Returns tt)).

(** An exception that is neither of the two the uniqueness check of
    [resolve_vm_uuid] raises, for any name. *)
Definition not_count_error (e : exn) : Prop :=
  forall vm_name,
    e <> NotFoundError vm_name /\ e <> AmbiguousNameError vm_name.

End Flows.

(** Code that sends nothing and needs no step budget. *)
Definition silent {A} (m : M A) : Prop :=
  forall h, exists o, m h = (o, h) /\ o <> OutOfFuel.

(** Code whose exceptions all satisfy [P]. *)
Definition raises_only {A} (P : exn -> Prop) (m : M A) : Prop :=
  forall h e h', m h = (Raises e, h') -> P e.

(** The exceptions of the interpreter, as opposed to those the script
    raises itself. *)
Definition builtin (e : exn) : Prop :=
  match e with
  | Exception _ => False
  | _ => True
  end.

(** The pruned specification of clone [i], when the descriptor's name is
    the text [base]. *)
Definition clone_spec (proto : gmap string value) (base : string) (i : Z)
    : value :=
  _strip_empty_fields
    (VDict (<["name" := VStr ((base +:+ "-") +:+ Py.str_int i)]> proto)).

(** The fields of a pruned specification that do not depend on the
    descriptor. *)
Definition fixed_fields (spec : value) : Prop :=
  Py.getitem spec "overrideNetworkConfig" = Ok (VStr "false")
  /\ Py.getitem spec "uuid" = Err KeyError
  /\ Py.getitem spec "vmNics" = Err KeyError
  /\ Py.getitem spec "sourceVMLogicalTimestamp" = Err KeyError.

(** The two ways [main] rejects an invocation: a failed assertion on a
    missing parameter, and the exception for an unknown mode. *)
Definition InvalidArgumentError (e : exn) : Prop :=
  e = AssertionError
  \/ e = Exception "Unknown --action; expected 'clone' or 'cleanup'".

(** A structure in which nothing is left to prune: in every list and every
    dict, at any depth, each element is truthy. *)
Inductive pruned : value -> Prop :=
| pruned_None : pruned VNone
| pruned_Bool (b : bool) : pruned (VBool b)
| pruned_Int (n : Z) : pruned (VInt n)
| pruned_Float (x : float) : pruned (VFloat x)
| pruned_Str (s : string) : pruned (VStr s)
| pruned_List (l : list value) :
    Forall (fun x => Py.truthy x = true /\ pruned x) l -> pruned (VList l)
| pruned_Dict (m : gmap string value) :
    map_Forall (fun _ x => Py.truthy x = true /\ pruned x) m ->
    pruned (VDict m).

(** The specification of clone [i] for a descriptor whose virtual CPU
    count and memory size are kept by the pruning. *)
Definition full_clone_spec (numVcpus memoryMb : value) (base : string)
    (i : Z) : value :=
  VDict (<["numVcpus" := numVcpus]>
         (<["overrideNetworkConfig" := VStr "false"]>
         (<["name" := VStr ((base +:+ "-") +:+ Py.str_int i)]>
         (<["memoryMb" := memoryMb]> ∅)))).

(** A request to the cluster at [ip], on the port of its REST services. *)
Definition to_cluster (ip : string) (req : Request) : Prop :=
  exists path, req_url req = "https://" +:+ ip +:+ ":9440/" +:+ path.

Definition is_delete (req : Request) : bool :=
  match req_method req with
  | DELETE => true
  | _ => false
  end.

#[global] Instance method_eq_dec : EqDecision method.
Proof. solve_decision. Defined.

(** The number of deletions among some requests. *)
Definition deletions (sent : list Request) : nat :=
  length (filter (fun req => req_method req = DELETE) sent).

(** ** A worked example *)

(** Stand-ins for the library functions, for the examples only: [quote_plus]
    follows [urllib]; the dump writes no escapes and no floats; [str] of
    text is the text. *)
Module Example.

Definition hex_digit (n : nat) : ascii :=
  nth n (list_ascii_of_string "0123456789ABCDEF") "0"%char.

Definition is_safe (c : ascii) : bool :=
  let n := nat_of_ascii c in
  ((65 <=? n) && (n <=? 90) || (97 <=? n) && (n <=? 122)
   || (48 <=? n) && (n <=? 57) || (n =? 95) || (n =? 46) || (n =? 45))%nat.

Fixpoint quote_plus (s : string) : string :=
  match s with
  | EmptyString => EmptyString
  | String c t =>
      (if is_safe c then String c EmptyString
       else if Ascii.eqb c " " then "+"
       else String "%" (String (hex_digit (nat_of_ascii c / 16))
                          (String (hex_digit (nat_of_ascii c mod 16))
                             EmptyString)))
      +:+ quote_plus t
  end.

Definition encode (params : list (string * string)) : string :=
  String.concat "&"
    ((fun kv => quote_plus kv.1 +:+ "=" +:+ quote_plus kv.2) <$> params).

Definition quoted (s : string) : string :=
  String (ascii_of_nat 34) (s +:+ String (ascii_of_nat 34) EmptyString).

Fixpoint dumps (v : value) : string :=
  match v with
  | VNone => "null"
  | VBool true => "true"
  | VBool false => "false"
  | VInt n => Py.str_int n
  | VFloat _ => "0.0"
  | VStr s => quoted s
  | VList l => "[" +:+ String.concat ", " (dumps <$> l) +:+ "]"
  | VDict m =>
      "{" +:+ String.concat ", "
                (map_fold (fun k x items => (quoted k +:+ ": " +:+ dumps x)
                                            :: items) [] m)
      +:+ "}"
  end.

Definition str (v : value) : string :=
  match v with
  | VStr s => s
  | VNone => "None"
  | VBool true => "True"
  | VBool false => "False"
  | _ => dumps v
  end.

Definition lib : PyLib :=
  {| urlencode := encode;
     json_dumps := dumps;
     str_value := str;
     repr_str := fun s => "'" +:+ s +:+ "'" |}.

(** A cluster that answers the [n]-th request with the [n]-th reply of a
    list, whatever the request. *)
Definition scripted (replies : list reply) : Cluster :=
  fun h => default Failed (replies !! (length h - 1)%nat).

Definition dict (items : list (string * value)) : value :=
  VDict (list_to_map items).

Definition ok (body : value) : reply :=
  Responded {| status_code := 200; json := Some body |}.

Definition client : RestApiClient := __init__ "10.0.0.1" "admin" "admin".

(** The name query finds one VM. *)
Definition found (vmId : string) : value :=
  dict [("metadata", dict [("count", VInt 1)]);
        ("entities", VList [dict [("vmId", VStr vmId)]])].

(** The name query finds nothing. *)
Definition not_found : value :=
  dict [("metadata", dict [("count", VInt 0)]); ("entities", VList [])].

Definition web01_config : value :=
  dict [("numVcpus", VInt 2); ("memoryMb", VInt 4096);
        ("name", VStr "web01")].

Definition web01_info : value := dict [("config", web01_config)].

Definition task (task_uuid : string) : value :=
  dict [("taskUuid", VStr task_uuid)].

Definition poll_pending : value := dict [("taskInfo", dict [])].

Definition poll_done : value :=
  dict [("taskInfo",
         dict [("metaResponse", dict [("error", VStr "kNoError")])])].

Definition poll_failed : value :=
  dict [("taskInfo",
         dict [("metaResponse",
                dict [("error", VStr "kInvalidState");
                      ("errorDetail", VStr "vm is busy")])])].

(** The completion field is there, and is [null]. *)
Definition poll_null : value :=
  dict [("taskInfo", dict [("metaResponse", VNone)])].

Definition flags (action vm_name : option string) (num_clones : Z) : Flags :=
  {| action := action;
     flag_cluster_ip := Some "10.0.0.1";
     flag_username := "admin";
     flag_password := "admin";
     vm_name := vm_name;
     num_clones := num_clones |}.

End Example.

(** More of the worked example: a descriptor with falsy fields, one whose
    name is a number, and a cluster that cleans up two clones. *)
Module Example2.

Definition idle_info : value :=
  Example.dict
    [("config",
      Example.dict [("numVcpus", VInt 0); ("memoryMb", VNone);
                    ("name", VStr "idle")])].

Definition numbered_info : value :=
  Example.dict
    [("config",
      Example.dict [("numVcpus", VInt 2); ("memoryMb", VInt 4096);
                    ("name", VInt 7)])].

(** Two matches for one name. *)
Definition found_twice : value :=
  Example.dict
    [("metadata", Example.dict [("count", VInt 2)]);
     ("entities",
      VList [Example.dict [("vmId", VStr "0005::aa")];
             Example.dict [("vmId", VStr "0005::bb")]])].

Definition status (code : Z) : reply :=
  Responded {| status_code := code; json := None |}.

(** The completion field is an empty dict. *)
Definition poll_empty_completion : value :=
  Example.dict [("taskInfo", Example.dict [("metaResponse", Example.dict [])])].

Definition two_clones : Cluster :=
  Example.scripted
    [Example.ok (Example.found "0005::aa"); Example.ok (Example.task "t-0");
     Example.ok Example.poll_done;
     Example.ok (Example.found "0005::bb"); Example.ok (Example.task "t-1");
     Example.ok Example.poll_pending; Example.ok Example.poll_done].

Definition one_clone_only : Cluster :=
  Example.scripted
    [Example.ok (Example.found "0005::aa"); Example.ok (Example.task "t-0");
     Example.ok Example.poll_done; Example.ok Example.not_found].

End Example2.

(** * Proofs *)

(** ** Induction over decoded JSON, continued *)

Lemma value_size_elem (l : list value) (x : value) :
  x ∈ l -> (value_size x < value_size (VList l))%nat.
Proof.
  induction 1 as [x l|x y l _ IH]; simpl in *; lia.
Qed.

Lemma value_size_lookup (m : gmap string value) (k : string) (x : value) :
  m !! k = Some x -> (value_size x < value_size (VDict m))%nat.
Proof.
  simpl. revert k x.
  induction m as [|j y m Hj Hfold IH] using map_first_key_ind; intros k x Hk.
  - by rewrite lookup_empty in Hk.
  - rewrite map_fold_insert_first_key by done.
    destruct (decide (j = k)) as [->|Hne].
    + rewrite lookup_insert_eq in Hk. injection Hk as ->. lia.
    + rewrite lookup_insert_ne in Hk by done. specialize (IH _ _ Hk). lia.
Qed.

Lemma value_ind' (P : value -> Prop) :
  P VNone ->
  (forall b, P (VBool b)) ->
  (forall n, P (VInt n)) ->
  (forall x, P (VFloat x)) ->
  (forall s, P (VStr s)) ->
  (forall l, Forall P l -> P (VList l)) ->
  (forall m, map_Forall (fun _ => P) m -> P (VDict m)) ->
  forall v, P v.
Proof.
  intros HNone HBool HInt HFloat HStr HList HDict.
  assert (forall n v, (value_size v < n)%nat -> P v) as Hsize.
  { induction n as [|n IH]; intros v Hlt; [lia|].
    destruct v as [| | | | |l|m]; auto.
    - apply HList, Forall_forall. intros x Hx. apply IH.
      pose proof (value_size_elem _ _ Hx). lia.
    - apply HDict. intros k x Hk. apply IH.
      pose proof (value_size_lookup _ _ _ Hk). lia. }
  intros v. apply (Hsize (S (value_size v))). lia.
Qed.

(** ** Pruning: what it keeps *)

Lemma strip_dict_list (l : list value) :
  strip_dict (VList l) = VList (omap (keep_stripped strip_dict) l).
Proof. reflexivity. Qed.

Lemma strip_dict_dict (m : gmap string value) :
  strip_dict (VDict m) = VDict (omap (keep_stripped strip_dict) m).
Proof. reflexivity. Qed.

(** A value that pruning leaves alone and that is truthy is kept as it
    is. *)
Lemma keep_stripped_fixed (v : value) :
  strip_dict v = v -> Py.truthy v = true ->
  keep_stripped strip_dict v = Some v.
Proof.
  intros Hfix Htrue. unfold keep_stripped. by rewrite Hfix, Htrue.
Qed.

(** Whatever a comprehension keeps is pruned and truthy. *)
Lemma keep_stripped_Some (v w : value) :
  keep_stripped strip_dict v = Some w ->
  w = strip_dict v /\ Py.truthy v = true /\ Py.truthy w = true.
Proof.
  unfold keep_stripped.
  destruct (Py.truthy v) eqn:Hv, (Py.truthy (strip_dict v)) eqn:Hw;
    simpl; intros [= <-]; auto.
Qed.

Lemma keep_stripped_twice (v : value) :
  strip_dict (strip_dict v) = strip_dict v ->
  keep_stripped strip_dict v ≫= keep_stripped strip_dict
  = keep_stripped strip_dict v.
Proof.
  intros IH. destruct (keep_stripped strip_dict v) as [w|] eqn:Hkeep; [|done].
  apply keep_stripped_Some in Hkeep as (-> & _ & Hw). simpl.
  by apply keep_stripped_fixed.
Qed.

Lemma omap_keep_stripped_twice (l : list value) :
  Forall (fun x => strip_dict (strip_dict x) = strip_dict x) l ->
  omap (keep_stripped strip_dict) (omap (keep_stripped strip_dict) l)
  = omap (keep_stripped strip_dict) l.
Proof.
  induction 1 as [|x l Hx _ IHl]; [done|].
  pose proof (keep_stripped_twice x Hx) as Htwice.
  cbn [omap list_omap].
  destruct (keep_stripped strip_dict x) as [w|]; [|exact IHl].
  cbn [omap list_omap]. simpl in Htwice. rewrite Htwice.
  f_equal. exact IHl.
Qed.

(** C8. Pruning is idempotent: pruning an already-pruned structure (nested
    dicts, lists and scalars) gives that structure back unchanged. *)
Theorem strip_dict_idempotent (v : value) :
  _strip_empty_fields (_strip_empty_fields v) = _strip_empty_fields v.
Proof.
  unfold _strip_empty_fields.
  induction v as [| | | | |l IH|m IH] using value_ind'; try reflexivity.
  - rewrite !strip_dict_list. f_equal. by apply omap_keep_stripped_twice.
  - rewrite !strip_dict_dict. f_equal.
    apply map_eq. intros k. rewrite !lookup_omap.
    destruct (m !! k) as [x|] eqn:Hk; [|done]. simpl.
    apply keep_stripped_twice. by apply (IH k).
Qed.


(** ** The clone request *)

Lemma vm_clone_proto_literal_name (numVcpus name memoryMb : value) :
  Py.getitem (VDict (vm_clone_proto_literal numVcpus name memoryMb)) "name"
  = Ok name.
Proof. reflexivity. Qed.

Lemma clone_body_text (base : string) (i : Z) (proto : gmap string value)
    (specs : list value) :
  construct_vm_clone_proto_body (VStr base) i (proto, specs)
  = Ok (<["name" := VStr ((base +:+ "-") +:+ Py.str_int i)]> proto,
        specs ++ [clone_spec proto base i]).
Proof. reflexivity. Qed.

(** With a text name the loop never raises, and every turn appends the
    pruned seed in which only the name was replaced. *)
Lemma clone_loop_text (base : string) (xs : list Z)
    (proto : gmap string value) (specs : list value) :
  exists proto',
    for_in xs (construct_vm_clone_proto_body (VStr base)) (proto, specs)
    = Ok (proto', specs ++ (clone_spec proto base <$> xs)).
Proof.
  revert proto specs. induction xs as [|i xs IH]; intros proto specs.
  - exists proto. simpl. by rewrite app_nil_r.
  - cbn [for_in]. rewrite clone_body_text. cbn [rbind].
    destruct (IH (<["name" := VStr ((base +:+ "-") +:+ Py.str_int i)]> proto)
                 (specs ++ [clone_spec proto base i])) as [proto' ->].
    exists proto'. rewrite <- app_assoc. cbn [fmap list_fmap app].
    do 4 f_equal. apply list_fmap_ext. intros _ j _.
    unfold clone_spec. by rewrite insert_insert_eq.
Qed.

(** With any other name the first turn raises. *)
Lemma clone_loop_not_text (name : value) (i : Z) (xs : list Z)
    (st : gmap string value * list value) :
  (forall base, name <> VStr base) ->
  for_in (i :: xs) (construct_vm_clone_proto_body name) st = Err TypeError.
Proof.
  intros Hname. destruct st as [proto specs].
  destruct name; try reflexivity. by destruct (Hname s).
Qed.

(** What [construct_vm_clone_proto] returns for a descriptor whose config
    has the three fields and a text name. *)
Lemma construct_vm_clone_proto_text (vm_uuid : string)
    (vm_info config numVcpus memoryMb : value) (base : string)
    (num_clones : Z) :
  Py.getitem vm_info "config" = Ok config ->
  Py.getitem config "numVcpus" = Ok numVcpus ->
  Py.getitem config "name" = Ok (VStr base) ->
  Py.getitem config "memoryMb" = Ok memoryMb ->
  construct_vm_clone_proto vm_uuid vm_info num_clones
  = Ok (VDict {[ "specList" :=
         VList (clone_spec
                  (vm_clone_proto_literal numVcpus (VStr base) memoryMb) base
                <$> Py.range 0 num_clones) ]}).
Proof.
  intros Hconfig Hcpu Hname Hmem. unfold construct_vm_clone_proto.
  rewrite Hconfig. cbn [rbind]. rewrite Hcpu, Hname, Hmem. cbn [rbind].
  rewrite vm_clone_proto_literal_name. cbn [rbind].
  destruct (clone_loop_text base (Py.range 0 num_clones)
              (vm_clone_proto_literal numVcpus (VStr base) memoryMb) [])
    as [proto' ->].
  reflexivity.
Qed.

Lemma range_length (n : Z) : 0 <= n -> Z.of_nat (length (Py.range 0 n)) = n.
Proof. intros Hn. unfold Py.range. rewrite length_seqZ. lia. Qed.

Lemma range_lookup (n i : Z) :
  0 <= i < n -> Py.range 0 n !! Z.to_nat i = Some i.
Proof.
  intros Hi. unfold Py.range.
  rewrite lookup_seqZ. split; lia.
Qed.

(** The name a pruned specification carries. *)
Lemma clone_spec_name (proto : gmap string value) (base : string) (i : Z) :
  Py.getitem (clone_spec proto base i) "name"
  = Ok (VStr ((base +:+ "-") +:+ Py.str_int i)).
Proof.
  unfold clone_spec, _strip_empty_fields. rewrite strip_dict_dict.
  unfold Py.getitem. rewrite lookup_omap, lookup_insert_eq. simpl.
  rewrite keep_stripped_fixed; [done..|].
  simpl. destruct base; reflexivity.
Qed.

(** C2. For a descriptor whose config fields are present (the name being
    text) and a count [num_clones >= 0], the request built holds exactly
    [num_clones] specifications under [specList], and the [i]-th one, for
    [0 <= i < num_clones], is named with the descriptor's name followed by
    ["-"] and the decimal representation of [i]. *)
Theorem construct_vm_clone_proto_count_and_names (vm_uuid : string)
    (vm_info config numVcpus memoryMb : value) (base : string)
    (num_clones : Z) :
  Py.getitem vm_info "config" = Ok config ->
  Py.getitem config "numVcpus" = Ok numVcpus ->
  Py.getitem config "name" = Ok (VStr base) ->
  Py.getitem config "memoryMb" = Ok memoryMb ->
  0 <= num_clones ->
  exists specs,
    construct_vm_clone_proto vm_uuid vm_info num_clones
    = Ok (VDict {[ "specList" := VList specs ]})
    /\ Z.of_nat (length specs) = num_clones
    /\ forall i, 0 <= i < num_clones ->
         exists spec,
           specs !! Z.to_nat i = Some spec
           /\ Py.getitem spec "name"
              = Ok (VStr ((base +:+ "-") +:+ Py.str_int i)).
Proof.
  intros Hconfig Hcpu Hname Hmem Hn.
  eexists. split; [by eapply construct_vm_clone_proto_text|].
  split.
  - rewrite length_fmap. by apply range_length.
  - intros i Hi. eexists. split.
    + rewrite list_lookup_fmap, (range_lookup _ _ Hi). reflexivity.
    + apply clone_spec_name.
Qed.

Lemma clone_spec_fixed_fields (numVcpus name memoryMb : value)
    (base : string) (i : Z) :
  fixed_fields
    (clone_spec (vm_clone_proto_literal numVcpus name memoryMb) base i).
Proof.
  unfold fixed_fields, clone_spec, _strip_empty_fields.
  rewrite strip_dict_dict. unfold Py.getitem.
  rewrite !lookup_omap, !lookup_insert_ne by done.
  repeat split; reflexivity.
Qed.

(** A request that [construct_vm_clone_proto] builds holds the
    specifications under [specList], one for each index of the range. *)
Lemma construct_vm_clone_proto_Ok (vm_uuid : string) (vm_info : value)
    (num_clones : Z) (request : value) :
  construct_vm_clone_proto vm_uuid vm_info num_clones = Ok request ->
  exists specs,
    request = VDict {[ "specList" := VList specs ]}
    /\ length specs = Z.to_nat num_clones
    /\ Forall fixed_fields specs.
Proof.
  unfold construct_vm_clone_proto.
  destruct (Py.getitem vm_info "config") as [config|] eqn:Hconfig;
    [cbn [rbind]|discriminate].
  destruct (Py.getitem config "numVcpus") as [numVcpus|] eqn:Hcpu;
    [cbn [rbind]|discriminate].
  destruct (Py.getitem config "name") as [name|] eqn:Hname;
    [cbn [rbind]|discriminate].
  destruct (Py.getitem config "memoryMb") as [memoryMb|] eqn:Hmem;
    [cbn [rbind]|discriminate].
  rewrite vm_clone_proto_literal_name. cbn [rbind].
  assert (length (Py.range 0 num_clones) = Z.to_nat num_clones) as Hlength.
  { unfold Py.range. by rewrite length_seqZ, Z.sub_0_r. }
  assert ((exists base, name = VStr base) \/ forall base, name <> VStr base)
    as [[base ->]|Hname'].
  { destruct name; eauto; right; discriminate. }
  - destruct (clone_loop_text base (Py.range 0 num_clones)
                (vm_clone_proto_literal numVcpus (VStr base) memoryMb) [])
      as [proto' ->].
    intros [= <-]. eexists. split; [reflexivity|].
    split; [by rewrite length_fmap|].
    apply Forall_fmap, Forall_forall. intros j _.
    apply clone_spec_fixed_fields.
  - destruct (Py.range 0 num_clones) as [|j ys];
      [|by rewrite clone_loop_not_text].
    intros [= <-]. exists []. split; [reflexivity|]. split; [done|constructor].
Qed.

(** C10. A request that [construct_vm_clone_proto] builds holds one clone
    specification for each of the [num_clones] indices, and every one of
    them, whatever the descriptor, has the key [overrideNetworkConfig] with
    the text ["false"], and has none of the keys [uuid], [vmNics] and
    [sourceVMLogicalTimestamp]: these three are seeded empty and pruned.
    For a descriptor whose config has the virtual CPU count, the memory
    size and a text name (truthy or not) the request is built, so the
    [num_clones] specifications are there. *)
Theorem construct_vm_clone_proto_fixed_fields (vm_uuid : string)
    (vm_info : value) (num_clones : Z) :
  (forall request,
     construct_vm_clone_proto vm_uuid vm_info num_clones = Ok request ->
     exists specs,
       request = VDict {[ "specList" := VList specs ]}
       /\ length specs = Z.to_nat num_clones
       /\ Forall fixed_fields specs)
  /\ (forall config numVcpus memoryMb base,
        Py.getitem vm_info "config" = Ok config ->
        Py.getitem config "numVcpus" = Ok numVcpus ->
        Py.getitem config "name" = Ok (VStr base) ->
        Py.getitem config "memoryMb" = Ok memoryMb ->
        exists specs,
          construct_vm_clone_proto vm_uuid vm_info num_clones
          = Ok (VDict {[ "specList" := VList specs ]})
          /\ length specs = Z.to_nat num_clones
          /\ Forall fixed_fields specs).
Proof.
  split.
  - apply construct_vm_clone_proto_Ok.
  - intros config numVcpus memoryMb base Hconfig Hcpu Hname Hmem.
    pose proof (construct_vm_clone_proto_text vm_uuid vm_info config numVcpus
                  memoryMb base num_clones Hconfig Hcpu Hname Hmem) as Hbuilt.
    destruct (construct_vm_clone_proto_Ok _ _ _ _ Hbuilt)
      as (specs & Hspecs & Hlength & Hfields).
    exists specs. by rewrite Hbuilt, Hspecs.
Qed.

(** ** More on pruning *)

Lemma strip_dict_is_pruned (v : value) : pruned (strip_dict v).
Proof.
  induction v as [| | | | |l IH|m IH] using value_ind';
    [constructor..| |].
  - rewrite strip_dict_list. constructor.
    induction IH as [|x l Hx _ IHl]; [constructor|].
    cbn [omap list_omap].
    destruct (keep_stripped strip_dict x) as [w|] eqn:Hkeep; [|exact IHl].
    apply keep_stripped_Some in Hkeep as (-> & _ & Hw).
    by constructor.
  - rewrite strip_dict_dict. constructor.
    intros k w. rewrite lookup_omap.
    destruct (m !! k) as [x|] eqn:Hk; [|done]. simpl. intros Hkeep.
    apply keep_stripped_Some in Hkeep as (-> & _ & Hw).
    split; [done|]. by apply (IH k).
Qed.

Lemma pruned_strip_dict (v : value) : pruned v -> strip_dict v = v.
Proof.
  induction v as [| | | | |l IH|m IH] using value_ind'; try reflexivity.
  - intros Hpruned. inversion Hpruned as [| | | | |l' Hl|]; subst.
    rewrite strip_dict_list. f_equal.
    induction l as [|x l IHl]; [done|].
    apply Forall_cons in IH as [Hx IH]. apply Forall_cons in Hl as [[Ht Hp] Hl].
    cbn [omap list_omap].
    rewrite keep_stripped_fixed by auto.
    f_equal. apply IHl; [done|by constructor|done].
  - intros Hpruned. inversion Hpruned as [| | | | | |m' Hm]; subst.
    rewrite strip_dict_dict. f_equal.
    apply map_eq. intros k. rewrite lookup_omap.
    destruct (m !! k) as [x|] eqn:Hk; [|done]. simpl.
    destruct (Hm k x Hk) as [Ht Hp].
    apply keep_stripped_fixed; [|done]. by apply (IH k).
Qed.

(** X1. The result of pruning has nothing left to prune: in every list and
    dict of it, at any depth, each element is truthy. *)
Theorem strip_empty_fields_pruned (v : value) :
  pruned (_strip_empty_fields v).
Proof. apply strip_dict_is_pruned. Qed.

(** X2. Pruning leaves a structure unchanged exactly when the structure has
    nothing to prune. *)
Theorem strip_empty_fields_fixed_iff_pruned (v : value) :
  _strip_empty_fields v = v <-> pruned v.
Proof.
  unfold _strip_empty_fields. split.
  - intros <-. apply strip_dict_is_pruned.
  - apply pruned_strip_dict.
Qed.

(** X3. Pruning a dict never adds a key: a key of the result is a key of
    the dict, its value there is truthy, and the result holds the pruned
    value, truthy too. Conversely such a key stays. *)
Theorem strip_empty_fields_keys (m : gmap string value) (k : string)
    (w : value) :
  Py.getitem (_strip_empty_fields (VDict m)) k = Ok w
  <-> exists v,
        m !! k = Some v
        /\ w = _strip_empty_fields v
        /\ Py.truthy v = true
        /\ Py.truthy w = true.
Proof.
  unfold _strip_empty_fields. rewrite strip_dict_dict.
  unfold Py.getitem. rewrite lookup_omap. split.
  - destruct (m !! k) as [v|]; [|done]. simpl.
    destruct (keep_stripped strip_dict v) as [w'|] eqn:Hkeep; [|done].
    intros [= ->]. apply keep_stripped_Some in Hkeep. by exists v.
  - intros (v & -> & -> & Hv & Hw). simpl. unfold keep_stripped.
    by rewrite Hv, Hw.
Qed.

(** ** More on the clone request *)

Lemma keep_stripped_falsy (v : value) :
  Py.truthy v = false -> keep_stripped strip_dict v = None.
Proof. intros Hv. unfold keep_stripped. by rewrite Hv. Qed.

Lemma keep_stripped_pruned (v : value) :
  Py.truthy v = true -> pruned v -> keep_stripped strip_dict v = Some v.
Proof.
  intros Hv Hp. apply keep_stripped_fixed; [|done]. by apply pruned_strip_dict.
Qed.

(** The entries of a pruned specification, key by key. *)
Lemma clone_spec_lookup (numVcpus name memoryMb : value) (base : string)
    (i : Z) (k : string) :
  Py.getitem
    (clone_spec (vm_clone_proto_literal numVcpus name memoryMb) base i) k
  = if decide (k = "name") then Ok (VStr ((base +:+ "-") +:+ Py.str_int i))
    else if decide (k = "numVcpus") then
      from_option Ok (Err KeyError) (keep_stripped strip_dict numVcpus)
    else if decide (k = "overrideNetworkConfig") then Ok (VStr "false")
    else if decide (k = "memoryMb") then
      from_option Ok (Err KeyError) (keep_stripped strip_dict memoryMb)
    else Err KeyError.
Proof.
  unfold clone_spec, _strip_empty_fields, vm_clone_proto_literal.
  rewrite strip_dict_dict. unfold Py.getitem. rewrite lookup_omap.
  destruct (decide (k = "name")) as [->|Hname].
  { rewrite lookup_insert_eq. simpl.
    rewrite keep_stripped_fixed; [done..|]. by destruct base. }
  rewrite lookup_insert_ne by done.
  destruct (decide (k = "numVcpus")) as [->|Hcpu].
  { rewrite lookup_insert_eq. simpl.
    by destruct (keep_stripped strip_dict numVcpus). }
  rewrite lookup_insert_ne by done.
  destruct (decide (k = "overrideNetworkConfig")) as [->|Hoverride];
    [done|].
  rewrite lookup_insert_ne by done. rewrite lookup_insert_ne by done.
  destruct (decide (k = "memoryMb")) as [->|Hmem].
  { rewrite lookup_insert_eq. simpl.
    by destruct (keep_stripped strip_dict memoryMb). }
  rewrite lookup_insert_ne by done.
  destruct (decide (k = "uuid")) as [->|Huuid]; [done|].
  rewrite lookup_insert_ne by done.
  destruct (decide (k = "vmNics")) as [->|Hnics]; [done|].
  rewrite lookup_insert_ne by done.
  destruct (decide (k = "sourceVMLogicalTimestamp")) as [->|Hts]; [done|].
  rewrite lookup_insert_ne by done. by rewrite lookup_empty.
Qed.

Lemma getitem_VDict_inj (m1 m2 : gmap string value) :
  (forall k, Py.getitem (VDict m1) k = Py.getitem (VDict m2) k) -> m1 = m2.
Proof.
  intros Hget. apply map_eq. intros k. specialize (Hget k).
  unfold Py.getitem in Hget.
  destruct (m1 !! k), (m2 !! k); congruence.
Qed.

Lemma clone_spec_full (numVcpus memoryMb : value) (base : string) (i : Z) :
  Py.truthy numVcpus = true -> pruned numVcpus ->
  Py.truthy memoryMb = true -> pruned memoryMb ->
  clone_spec (vm_clone_proto_literal numVcpus (VStr base) memoryMb) base i
  = full_clone_spec numVcpus memoryMb base i.
Proof.
  intros Hcpu Hcpu' Hmem Hmem'.
  unfold clone_spec, _strip_empty_fields, full_clone_spec.
  rewrite strip_dict_dict. f_equal. apply getitem_VDict_inj. intros k.
  etrans; [apply (clone_spec_lookup numVcpus (VStr base) memoryMb base i k)|].
  rewrite !keep_stripped_pruned by done. unfold Py.getitem.
  destruct (decide (k = "name")) as [->|Hname]; [done|].
  destruct (decide (k = "numVcpus")) as [->|?]; [done|].
  destruct (decide (k = "overrideNetworkConfig")) as [->|?]; [done|].
  destruct (decide (k = "memoryMb")) as [->|?]; [done|].
  by rewrite !lookup_insert_ne, lookup_empty by done.
Qed.

(** X4. For a descriptor whose name is text and whose virtual CPU count
    and memory size are truthy and have nothing to prune (numbers other
    than zero, for one), each clone specification is exactly the dict of
    [numVcpus], [overrideNetworkConfig], [name] and [memoryMb]: the two
    values of the descriptor unchanged, ["false"], and the clone's name. *)
Theorem construct_vm_clone_proto_full_specs (vm_uuid : string)
    (vm_info config numVcpus memoryMb : value) (base : string)
    (num_clones : Z) :
  Py.getitem vm_info "config" = Ok config ->
  Py.getitem config "numVcpus" = Ok numVcpus ->
  Py.getitem config "name" = Ok (VStr base) ->
  Py.getitem config "memoryMb" = Ok memoryMb ->
  Py.truthy numVcpus = true -> pruned numVcpus ->
  Py.truthy memoryMb = true -> pruned memoryMb ->
  construct_vm_clone_proto vm_uuid vm_info num_clones
  = Ok (VDict {[ "specList" :=
         VList (full_clone_spec numVcpus memoryMb base
                <$> Py.range 0 num_clones) ]}).
Proof.
  intros Hconfig Hcpu Hname Hmem Hcpu1 Hcpu2 Hmem1 Hmem2.
  rewrite (construct_vm_clone_proto_text vm_uuid vm_info config numVcpus
             memoryMb base num_clones) by done.
  do 4 f_equal. apply list_fmap_ext. intros _ i _.
  by apply clone_spec_full.
Qed.

(** X5. A falsy virtual CPU count or memory size in the descriptor (zero,
    [null], an empty value) is left out of every clone specification: the
    key is not there at all. *)
Theorem construct_vm_clone_proto_drops_falsy (vm_uuid : string)
    (vm_info config numVcpus memoryMb : value) (base : string)
    (num_clones : Z) :
  Py.getitem vm_info "config" = Ok config ->
  Py.getitem config "numVcpus" = Ok numVcpus ->
  Py.getitem config "name" = Ok (VStr base) ->
  Py.getitem config "memoryMb" = Ok memoryMb ->
  exists specs,
    construct_vm_clone_proto vm_uuid vm_info num_clones
    = Ok (VDict {[ "specList" := VList specs ]})
    /\ (Py.truthy numVcpus = false ->
        Forall (fun spec => Py.getitem spec "numVcpus" = Err KeyError) specs)
    /\ (Py.truthy memoryMb = false ->
        Forall (fun spec => Py.getitem spec "memoryMb" = Err KeyError) specs).
Proof.
  intros Hconfig Hcpu Hname Hmem.
  eexists. split; [by eapply construct_vm_clone_proto_text|].
  split; intros Hfalsy; apply Forall_fmap, Forall_forall; intros i _;
    unfold compose; rewrite clone_spec_lookup; simpl;
    by rewrite keep_stripped_falsy.
Qed.

Lemma construct_vm_clone_proto_empty_range (vm_uuid : string)
    (vm_info config numVcpus name memoryMb : value) (num_clones : Z) :
  Py.getitem vm_info "config" = Ok config ->
  Py.getitem config "numVcpus" = Ok numVcpus ->
  Py.getitem config "name" = Ok name ->
  Py.getitem config "memoryMb" = Ok memoryMb ->
  num_clones <= 0 ->
  construct_vm_clone_proto vm_uuid vm_info num_clones
  = Ok (VDict {[ "specList" := VList [] ]}).
Proof.
  intros Hconfig Hcpu Hname Hmem Hcount. unfold construct_vm_clone_proto.
  rewrite Hconfig. cbn [rbind]. rewrite Hcpu, Hname, Hmem. cbn [rbind].
  rewrite vm_clone_proto_literal_name. cbn [rbind].
  unfold Py.range, seqZ.
  by replace (Z.to_nat (num_clones - 0)) with 0%nat by lia.
Qed.

(** X6. With a count of zero or below, the request built has an empty
    [specList], whatever the type of the descriptor's name: the loop body,
    the only place that needs a text name, never runs. *)
Theorem construct_vm_clone_proto_no_clones (vm_uuid : string)
    (vm_info config numVcpus name memoryMb : value) (num_clones : Z) :
  Py.getitem vm_info "config" = Ok config ->
  Py.getitem config "numVcpus" = Ok numVcpus ->
  Py.getitem config "name" = Ok name ->
  Py.getitem config "memoryMb" = Ok memoryMb ->
  num_clones <= 0 ->
  construct_vm_clone_proto vm_uuid vm_info num_clones
  = Ok (VDict {[ "specList" := VList [] ]}).
Proof. apply construct_vm_clone_proto_empty_range. Qed.

(** X7. With a count of one or more and a descriptor name that is not
    text (a number, [null], a list, ...), building the request raises
    [TypeError]: the name cannot be joined to ["-"]. *)
Theorem construct_vm_clone_proto_name_not_text (vm_uuid : string)
    (vm_info config numVcpus name memoryMb : value) (num_clones : Z) :
  Py.getitem vm_info "config" = Ok config ->
  Py.getitem config "numVcpus" = Ok numVcpus ->
  Py.getitem config "name" = Ok name ->
  Py.getitem config "memoryMb" = Ok memoryMb ->
  (forall base, name <> VStr base) ->
  1 <= num_clones ->
  construct_vm_clone_proto vm_uuid vm_info num_clones = Err TypeError.
Proof.
  intros Hconfig Hcpu Hname Hmem Htext Hcount. unfold construct_vm_clone_proto.
  rewrite Hconfig. cbn [rbind]. rewrite Hcpu, Hname, Hmem. cbn [rbind].
  rewrite vm_clone_proto_literal_name. cbn [rbind].
  unfold Py.range. rewrite seqZ_cons by lia.
  by rewrite clone_loop_not_text.
Qed.

(** X8. A descriptor without [config], or whose [config] lacks one of
    [numVcpus], [name] and [memoryMb], makes the building raise [KeyError],
    whatever the count (also for a count of zero). *)
Theorem construct_vm_clone_proto_missing_key (vm_uuid : string)
    (d c : gmap string value) (num_clones : Z) :
  d !! "config" = None
  \/ (d !! "config" = Some (VDict c)
      /\ (c !! "numVcpus" = None \/ c !! "name" = None
          \/ c !! "memoryMb" = None)) ->
  construct_vm_clone_proto vm_uuid (VDict d) num_clones = Err KeyError.
Proof.
  unfold construct_vm_clone_proto.
  change (Py.getitem (VDict d) "config")
    with (match d !! "config" with
          | Some x => Ok x
          | None => Err KeyError
          end).
  intros [->|[-> Hmissing]]; [done|]. cbn [rbind].
  change (Py.getitem (VDict c) "numVcpus")
    with (match c !! "numVcpus" with
          | Some x => Ok x
          | None => Err KeyError
          end).
  change (Py.getitem (VDict c) "name")
    with (match c !! "name" with
          | Some x => Ok x
          | None => Err KeyError
          end).
  change (Py.getitem (VDict c) "memoryMb")
    with (match c !! "memoryMb" with
          | Some x => Ok x
          | None => Err KeyError
          end).
  destruct (c !! "numVcpus") as [numVcpus|]; [cbn [rbind]|done].
  destruct (c !! "name") as [name|]; [cbn [rbind]|done].
  destruct (c !! "memoryMb") as [memoryMb|]; [|done].
  by destruct Hmissing as [?|[?|?]].
Qed.

Lemma str_int_inj (i j : Z) : Py.str_int i = Py.str_int j -> i = j.
Proof.
  assert (forall z, NilZero.int_of_string (Py.str_int z) = Some (Z.to_int z))
    as Hparse.
  { intros z. unfold Py.str_int. apply NilZero.isi.
    - destruct z as [|p|p]; [done| |done]. simpl. intros [= Hnil].
      by apply (Unsigned.to_uint_nonnil p).
    - destruct z as [|p|p]; [done|done|]. simpl. intros [= Hnil].
      by apply (Unsigned.to_uint_nonnil p). }
  intros Heq. apply (f_equal NilZero.int_of_string) in Heq.
  rewrite !Hparse in Heq. injection Heq as Heq.
  apply (f_equal Z.of_int) in Heq. by rewrite !DecimalZ.of_to in Heq.
Qed.

(** X9. The clones of one request have pairwise different names: two
    specifications at different places of [specList] never carry the same
    name. *)
Theorem construct_vm_clone_proto_names_differ (vm_uuid : string)
    (vm_info config numVcpus memoryMb : value) (base : string)
    (num_clones : Z) :
  Py.getitem vm_info "config" = Ok config ->
  Py.getitem config "numVcpus" = Ok numVcpus ->
  Py.getitem config "name" = Ok (VStr base) ->
  Py.getitem config "memoryMb" = Ok memoryMb ->
  exists specs,
    construct_vm_clone_proto vm_uuid vm_info num_clones
    = Ok (VDict {[ "specList" := VList specs ]})
    /\ forall (a b : nat) spec_a spec_b,
         specs !! a = Some spec_a -> specs !! b = Some spec_b ->
         Py.getitem spec_a "name" = Py.getitem spec_b "name" ->
         a = b.
Proof.
  intros Hconfig Hcpu Hname Hmem.
  eexists. split; [by eapply construct_vm_clone_proto_text|].
  intros a b spec_a spec_b. rewrite !list_lookup_fmap.
  destruct (Py.range 0 num_clones !! a) as [i|] eqn:Hi; [|done].
  destruct (Py.range 0 num_clones !! b) as [j|] eqn:Hj; [|done].
  simpl. intros [= <-] [= <-]. rewrite !clone_spec_name. intros [= Heq].
  apply (inj (String.app _)), str_int_inj in Heq. subst j.
  unfold Py.range in Hi, Hj.
  apply lookup_seqZ in Hi as [Hi _]. apply lookup_seqZ in Hj as [Hj _]. lia.
Qed.

(** ** Running code that sends requests *)

Lemma silent_ret {A} (a : A) : silent (ret a).
Proof. intros h. by exists (Returns a). Qed.

Lemma silent_raise {A} (e : exn) : silent (@raise A e).
Proof. intros h. by exists (Raises e). Qed.

Lemma silent_lift {A} (m : result A) : silent (lift m).
Proof. destruct m; [apply silent_ret|apply silent_raise]. Qed.

Lemma silent_raise_if (b : bool) (e : exn) : silent (raise_if b e).
Proof. destruct b; [apply silent_raise|apply silent_ret]. Qed.

Lemma silent_bind {A B} (m : M A) (k : A -> M B) :
  silent m -> (forall a, silent (k a)) -> silent (bind m k).
Proof.
  intros Hm Hk h. unfold bind.
  destruct (Hm h) as (o & -> & Ho).
  destruct o as [a|e|]; [apply Hk|by exists (Raises e)|done].
Qed.

Lemma silent_if {A} (b : bool) (m1 m2 : M A) :
  silent m1 -> silent m2 -> silent (if b then m1 else m2).
Proof. by destruct b. Qed.

(** The monad laws the proofs step with. *)
Lemma bind_ret {A B} (a : A) (k : A -> M B) : bind (ret a) k = k a.
Proof. reflexivity. Qed.

Lemma bind_lift_Ok {A B} (a : A) (k : A -> M B) : bind (lift (Ok a)) k = k a.
Proof. reflexivity. Qed.

Lemma bind_lift_Err {A B} (e : exn) (k : A -> M B) :
  bind (lift (Err e)) k = raise e.
Proof. reflexivity. Qed.

Lemma bind_raise {A B} (e : exn) (k : A -> M B) : bind (raise e) k = raise e.
Proof. reflexivity. Qed.

Lemma bind_raise_if_false {B} (e : exn) (k : unit -> M B) :
  bind (raise_if false e) k = k tt.
Proof. reflexivity. Qed.

Lemma bind_raise_if_true {B} (e : exn) (k : unit -> M B) :
  bind (raise_if true e) k = raise e.
Proof. reflexivity. Qed.

Create HintDb silent.
#[local] Hint Resolve silent_ret silent_raise silent_lift silent_raise_if
  silent_if : silent.
#[local] Hint Extern 2 (silent (bind _ _)) =>
  apply silent_bind; [|intros ?] : silent.

Section ClientProofs.
Context `{PyLib} (cluster : Cluster).

Local Open Scope prog_scope.

(** A request followed by silent code: exactly that request is sent. *)
Lemma bind_send_silent {A} (req : Request) (k : Response -> M A)
    (h : list Request) :
  (forall r, silent (k r)) ->
  exists o, bind (send cluster req) k h = (o, h ++ [req]) /\ o <> OutOfFuel.
Proof.
  intros Hk. unfold bind, send.
  destruct (cluster (h ++ [req])) as [r|]; [apply Hk|].
  by exists (Raises RequestException).
Qed.

Lemma bind_send_Responded {A} (req : Request) (k : Response -> M A)
    (h : list Request) (r : Response) :
  cluster (h ++ [req]) = Responded r ->
  bind (send cluster req) k h = k r (h ++ [req]).
Proof. intros Hr. unfold bind, send. by rewrite Hr. Qed.

Lemma bind_send_Failed {A} (req : Request) (k : Response -> M A)
    (h : list Request) :
  cluster (h ++ [req]) = Failed ->
  bind (send cluster req) k h = (Raises RequestException, h ++ [req]).
Proof. intros Hr. unfold bind, send. by rewrite Hr. Qed.

(** [resolve_vm_uuid] sends one request, whatever it then does. *)
Lemma resolve_vm_uuid_sends (self : RestApiClient) (vm_name : string)
    (check_unique : Z) (h : list Request) :
  exists o,
    resolve_vm_uuid cluster self vm_name check_unique h
    = (o, h ++ [resolve_request self vm_name])
    /\ o <> OutOfFuel.
Proof.
  apply (bind_send_silent (resolve_request self vm_name)).
  intros r. auto 20 with silent.
Qed.

Lemma get_vm_info_sends (self : RestApiClient) (vm_uuid : string)
    (h : list Request) :
  exists o,
    get_vm_info cluster self vm_uuid h = (o, h ++ [info_request self vm_uuid])
    /\ o <> OutOfFuel.
Proof.
  apply (bind_send_silent (info_request self vm_uuid)).
  intros r. auto 20 with silent.
Qed.

(** *** One turn of the polling loop *)

#[local] Ltac poll_ends := right; split; [done|]; by eexists.

(** What one turn does, by the cluster's answer: when the task is still
    pending the loop goes on with the rest of its budget; in every other
    case the loop ends with this turn. *)
Lemma poll_task_loop_turn (self : RestApiClient) (task_uuid : value)
    (fuel : nat) (h : list Request) :
  let req := poll_request self task_uuid in
  (still_pending (cluster (h ++ [req])) = true
   /\ poll_task_loop cluster (S fuel) (req_url req) task_uuid h
      = poll_task_loop cluster fuel (req_url req) task_uuid (h ++ [req]))
  \/ (still_pending (cluster (h ++ [req])) = false
      /\ exists o,
           poll_task_loop cluster (S fuel) (req_url req) task_uuid h
           = (o, h ++ [req])
           /\ o <> OutOfFuel).
Proof.
  intros req. cbn [poll_task_loop].
  change (session_get cluster (req_url req)) with (send cluster req).
  destruct (cluster (h ++ [req])) as [r|] eqn:Hreply.
  2:{ rewrite bind_send_Failed by done. by poll_ends. }
  rewrite bind_send_Responded with (r := r) by done.
  unfold still_pending.
  destruct (status_code r =? codes_ok) eqn:Hstatus; [|by poll_ends].
  cbn [negb andb]. rewrite bind_raise_if_false. unfold Response_json.
  destruct (json r) as [obj|]; [|by poll_ends].
  rewrite bind_lift_Ok.
  destruct obj as [| | | | | |d]; try by poll_ends.
  change (Py.getitem (VDict d) "taskInfo")
    with (match d !! "taskInfo" with
          | Some x => Ok x
          | None => Err KeyError
          end).
  destruct (d !! "taskInfo") as [task_info|]; [|by poll_ends].
  rewrite bind_lift_Ok.
  destruct task_info as [| | | | | |ti]; try by poll_ends.
  unfold Py.get. rewrite bind_lift_Ok.
  destruct (ti !! "metaResponse") as [mr|]; [|by left].
  cbn [default from_option id].
  destruct mr; first [by left | right; split; [done|]];
    cbn [Py.is_None]; match goal with |- exists o, ?m _ = _ /\ _ =>
      assert (silent m) as Hsilent by auto 20 with silent end;
    apply Hsilent.
Qed.

Lemma completion_field_Some (r : Response) (mr : value) :
  completion_field r = Some mr ->
  exists obj task_info,
    json r = Some (VDict obj)
    /\ obj !! "taskInfo" = Some (VDict task_info)
    /\ task_info !! "metaResponse" = Some mr.
Proof.
  unfold completion_field. intros Hfield.
  destruct (json r) as [[| | | | | |obj]|]; try discriminate.
  destruct (obj !! "taskInfo") as [[| | | | | |task_info]|] eqn:Hinfo;
    try discriminate.
  by exists obj, task_info.
Qed.

(** A response that omits the completion field leaves the task pending. *)
Lemma omits_completion_pending (r : Response) :
  omits_completion r -> still_pending (Responded r) = true.
Proof.
  intros (Hstatus & obj & task_info & Hjson & Hinfo & Hmr).
  unfold still_pending. rewrite Hstatus, Hjson, Hinfo, Hmr. reflexivity.
Qed.

Lemma poll_task_loop_omitted (self : RestApiClient) (task_uuid : value)
    (fuel : nat) (h : list Request) (r : Response) :
  let req := poll_request self task_uuid in
  cluster (h ++ [req]) = Responded r ->
  omits_completion r ->
  poll_task_loop cluster (S fuel) (req_url req) task_uuid h
  = poll_task_loop cluster fuel (req_url req) task_uuid (h ++ [req]).
Proof.
  intros req Hreply Homits.
  pose proof (poll_task_loop_turn self task_uuid fuel h) as Hturn.
  cbv zeta in Hturn. fold req in Hturn.
  destruct Hturn as [[_ Hturn]|[Hpending _]]; [done|].
  rewrite Hreply, omits_completion_pending in Hpending by done.
  discriminate.
Qed.

(** The turn that sees the completion field: the loop ends on it, with
    the outcome the field's [error] decides. *)
Lemma poll_task_loop_completed (self : RestApiClient) (task_uuid : value)
    (fuel : nat) (h : list Request) (r : Response) (mr error : value) :
  let req := poll_request self task_uuid in
  cluster (h ++ [req]) = Responded r ->
  completes_with r mr ->
  Py.getitem mr "error" = Ok error ->
  (error = VStr "kNoError" ->
   poll_task_loop cluster (S fuel) (req_url req) task_uuid h
   = (Returns tt, h ++ [req]))
  /\ (error <> VStr "kNoError" ->
      forall errorDetail,
        Py.getitem mr "errorDetail" = Ok errorDetail ->
        poll_task_loop cluster (S fuel) (req_url req) task_uuid h
        = (Raises (TaskFailedError task_uuid error errorDetail), h ++ [req])).
Proof.
  intros req Hreply [Hstatus Hfield] Herror.
  apply completion_field_Some in Hfield
    as (obj & task_info & Hjson & Hinfo & Hmr).
  assert (Py.is_None mr = false) as Hnone.
  { destruct mr; try reflexivity. discriminate. }
  assert (poll_task_loop cluster (S fuel) (req_url req) task_uuid h
          = (if Py.eq_str error "kNoError" then ret tt
             else
               errorDetail <- lift (Py.getitem mr "errorDetail") ;;
               raise (TaskFailedError task_uuid error errorDetail))
              (h ++ [req])) as ->.
  { cbn [poll_task_loop].
    change (session_get cluster (req_url req)) with (send cluster req).
    rewrite bind_send_Responded with (r := r) by done.
    apply Z.eqb_eq in Hstatus. rewrite Hstatus. cbn [negb].
    rewrite bind_raise_if_false. unfold Response_json. rewrite Hjson.
    rewrite bind_lift_Ok.
    change (Py.getitem (VDict obj) "taskInfo")
      with (match obj !! "taskInfo" with
            | Some x => Ok x
            | None => Err KeyError
            end).
    rewrite Hinfo, bind_lift_Ok. unfold Py.get. rewrite Hmr.
    cbn [default from_option id]. rewrite bind_lift_Ok, Hnone, Herror.
    rewrite bind_lift_Ok. destruct (Py.eq_str error "kNoError"); [done|].
    by rewrite bind_lift_Ok. }
  split.
  - by intros ->.
  - intros Hne errorDetail Hdetail.
    assert (Py.eq_str error "kNoError" = false) as ->.
    { destruct error as [| | | |s| |]; try reflexivity.
      cbn [Py.eq_str]. apply String.eqb_neq. congruence. }
    by rewrite Hdetail.
Qed.

(** The requests of a polling loop are polls of its task: as many as the
    budget when it runs out, at least one when the loop ends. *)
Lemma poll_task_loop_sends (self : RestApiClient) (task_uuid : value)
    (fuel : nat) (h : list Request) :
  let req := poll_request self task_uuid in
  exists o polls,
    poll_task_loop cluster fuel (req_url req) task_uuid h
    = (o, h ++ replicate polls req)
    /\ (polls <= fuel)%nat
    /\ (o <> OutOfFuel -> (1 <= polls)%nat)
    /\ (o = OutOfFuel -> polls = fuel).
Proof.
  intros req. revert h. induction fuel as [|fuel IH]; intros h.
  - exists OutOfFuel, 0%nat. cbn [replicate]. rewrite app_nil_r.
    repeat split; done || lia.
  - pose proof (poll_task_loop_turn self task_uuid fuel h) as Hturn.
    cbv zeta in Hturn. fold req in Hturn.
    destruct Hturn as [[_ ->]|[_ (o & -> & Ho)]].
    + destruct (IH (h ++ [req])) as (o & polls & -> & Hle & Hsome & Hall).
      exists o, (S polls). rewrite <- app_assoc. cbn [replicate app].
      split; [done|]. split; [lia|]. split; [lia|].
      intros Hout. by rewrite Hall.
    + exists o, 1%nat. split; [done|]. split; [lia|]. split; [lia|done].
Qed.

(** With a cluster for which the task is always pending, the loop uses up
    any budget, one poll per turn. *)
Lemma poll_task_loop_always_pending (self : RestApiClient)
    (task_uuid : value) (fuel : nat) (h : list Request) :
  let req := poll_request self task_uuid in
  (forall h', still_pending (cluster h') = true) ->
  poll_task_loop cluster fuel (req_url req) task_uuid h
  = (OutOfFuel, h ++ replicate fuel req).
Proof.
  intros req Hpending. revert h. induction fuel as [|fuel IH]; intros h.
  - cbn [replicate]. by rewrite app_nil_r.
  - pose proof (poll_task_loop_turn self task_uuid fuel h) as Hturn.
    cbv zeta in Hturn. fold req in Hturn.
    destruct Hturn as [[_ ->]|[Hends _]].
    + rewrite IH, <- app_assoc. reflexivity.
    + by rewrite Hpending in Hends.
Qed.

(** C3. Whatever the number [k] of earlier successful responses that
    omitted the completion field, [poll_task] ends on the first response
    that has it: it returns when the field's error is ["kNoError"], and for
    any other error it raises the task failure made of the server's error
    and error detail. *)
Theorem poll_task_first_completion (self : RestApiClient)
    (task_uuid : value) (fuel k : nat) (h : list Request) (r : Response)
    (mr error : value) :
  let req := poll_request self task_uuid in
  (k < fuel)%nat ->
  (forall j, (j < k)%nat ->
     exists rj, cluster (h ++ replicate (S j) req) = Responded rj
                /\ omits_completion rj) ->
  cluster (h ++ replicate (S k) req) = Responded r ->
  completes_with r mr ->
  Py.getitem mr "error" = Ok error ->
  (error = VStr "kNoError" ->
   poll_task cluster self fuel task_uuid h
   = (Returns tt, h ++ replicate (S k) req))
  /\ (error <> VStr "kNoError" ->
      forall errorDetail,
        Py.getitem mr "errorDetail" = Ok errorDetail ->
        poll_task cluster self fuel task_uuid h
        = (Raises (TaskFailedError task_uuid error errorDetail),
           h ++ replicate (S k) req)).
Proof.
  intros req. unfold poll_task. change (acro_url _ _ _) with (req_url req).
  revert fuel h. induction k as [|k IH]; intros fuel h Hfuel Hbefore Hreply
    Hfield Herror.
  - destruct fuel as [|fuel]; [lia|].
    by apply poll_task_loop_completed with (r := r) (mr := mr).
  - destruct fuel as [|fuel]; [lia|].
    destruct (Hbefore 0%nat) as (r0 & Hr0 & Homits); [lia|].
    pose proof (poll_task_loop_omitted self task_uuid fuel h r0) as Hturn.
    cbv zeta in Hturn. fold req in Hturn. rewrite Hturn by done.
    replace (h ++ replicate (S (S k)) req)
      with ((h ++ [req]) ++ replicate (S k) req)
      by (by rewrite <- app_assoc).
    apply IH; [lia| |by rewrite <- app_assoc|done..].
    intros j Hj. destruct (Hbefore (S j)) as (rj & Hrj & Hoj); [lia|].
    exists rj. split; [|done]. by rewrite <- app_assoc.
Qed.

(** C7, as the code has it. In the polling loop the only case in which
    another poll is sent is a successful response whose [taskInfo] has no
    completion field or has it as [null] (the task is still pending); any
    other answer ends the loop on that turn, by a return or an exception.
    No turn looks at a clock or a deadline: with a cluster for which the
    task is always pending the loop uses up every budget, one poll per
    turn. *)
Theorem poll_task_pending_is_the_only_way_on (self : RestApiClient)
    (task_uuid : value) :
  let req := poll_request self task_uuid in
  (forall fuel h,
     (still_pending (cluster (h ++ [req])) = true
      /\ poll_task cluster self (S fuel) task_uuid h
         = poll_task cluster self fuel task_uuid (h ++ [req]))
     \/ (still_pending (cluster (h ++ [req])) = false
         /\ exists o,
              poll_task cluster self (S fuel) task_uuid h = (o, h ++ [req])
              /\ o <> OutOfFuel))
  /\ ((forall h, still_pending (cluster h) = true) ->
      forall fuel h,
        poll_task cluster self fuel task_uuid h
        = (OutOfFuel, h ++ replicate fuel req)).
Proof.
  intros req. split.
  - intros fuel h. apply poll_task_loop_turn.
  - intros Hpending fuel h. by apply poll_task_loop_always_pending.
Qed.

(** *** Resolving a name *)

Lemma split_last_None (sep : ascii) (s : string) :
  Py.split_last sep s = None -> ~ In sep (list_ascii_of_string s).
Proof.
  induction s as [|c s IH]; simpl; [tauto|].
  destruct (Py.split_last sep s) as [[pre suf]|]; [discriminate|].
  destruct (Ascii.eqb c sep) eqn:Hc; [discriminate|].
  apply Ascii.eqb_neq in Hc. intros _ [?|?]; [done|]. by apply IH.
Qed.

Lemma split_last_Some (sep : ascii) (s pre suf : string) :
  Py.split_last sep s = Some (pre, suf) ->
  s = pre +:+ String sep suf /\ ~ In sep (list_ascii_of_string suf).
Proof.
  revert pre. induction s as [|c s IH]; intros pre; simpl; [discriminate|].
  destruct (Py.split_last sep s) as [[pre' suf']|] eqn:Hs.
  - intros [= <- <-]. destruct (IH pre' eq_refl) as [-> Hsuf].
    by split.
  - destruct (Ascii.eqb c sep) eqn:Hc; [|discriminate].
    apply Ascii.eqb_eq in Hc as ->. intros [= <- <-].
    split; [done|]. by apply split_last_None.
Qed.

(** [s.rsplit(sep, 1)[-1]] is what follows the last [sep] of [s]. *)
Lemma rsplit1_last (s : string) (sep : ascii) :
  exists suffix,
    Py.getitem_last (Py.rsplit1 s sep) = Ok suffix
    /\ suffix_after_last sep s suffix.
Proof.
  unfold Py.rsplit1, suffix_after_last.
  destruct (Py.split_last sep s) as [[pre suf]|] eqn:Hs.
  - apply split_last_Some in Hs as [-> Hsuf]. exists suf. eauto.
  - apply split_last_None in Hs. exists s. eauto.
Qed.

(** [resolve_vm_uuid] up to the point where it has read the count of a
    successful response. *)
Lemma resolve_vm_uuid_counted (self : RestApiClient) (vm_name : string)
    (check_unique : Z) (h : list Request) (r : Response)
    (obj metadata count : value) :
  let req := resolve_request self vm_name in
  cluster (h ++ [req]) = Responded r ->
  status_code r = codes_ok ->
  json r = Some obj ->
  Py.getitem obj "metadata" = Ok metadata ->
  Py.getitem metadata "count" = Ok count ->
  resolve_vm_uuid cluster self vm_name check_unique h
  = ((if negb (check_unique =? 0) then
        raise_if (Py.eq_0 count) (NotFoundError vm_name) ;;
        raise_if (Py.gt_1 count) (AmbiguousNameError vm_name)
      else ret tt) ;;
     entities <- lift (Py.getitem obj "entities") ;;
     entity <- lift (Py.getindex0 entities) ;;
     vmId <- lift (Py.getitem entity "vmId") ;;
     parts <- lift (Py.rsplit1_value vmId ":") ;;
     lift (Py.getitem_last parts)) (h ++ [req]).
Proof.
  intros req Hreply Hstatus Hjson Hmeta Hcount. unfold resolve_vm_uuid.
  change (session_get cluster _) with (send cluster req).
  rewrite bind_send_Responded with (r := r) by done.
  apply Z.eqb_eq in Hstatus. rewrite Hstatus. cbn [negb].
  rewrite bind_raise_if_false. unfold Response_json. rewrite Hjson.
  rewrite bind_lift_Ok, Hmeta, bind_lift_Ok, Hcount, bind_lift_Ok.
  reflexivity.
Qed.

(** C1. For every successful response to the name query that reports an
    integer count, [resolve_vm_uuid] with the uniqueness check on raises
    the not-found exception when the count is zero, raises the not-unique
    exception when it is above one, and when it is one returns what
    follows the last [":"] of the first entity's [vmId]. *)
Theorem resolve_vm_uuid_checks_count (self : RestApiClient)
    (vm_name : string) (check_unique : Z) (h : list Request) (r : Response)
    (obj metadata : value) (count : Z) :
  let req := resolve_request self vm_name in
  let run := resolve_vm_uuid cluster self vm_name check_unique h in
  check_unique <> 0 ->
  cluster (h ++ [req]) = Responded r ->
  status_code r = codes_ok ->
  json r = Some obj ->
  Py.getitem obj "metadata" = Ok metadata ->
  Py.getitem metadata "count" = Ok (VInt count) ->
  (count = 0 -> run = (Raises (NotFoundError vm_name), h ++ [req]))
  /\ (1 < count ->
      run = (Raises (AmbiguousNameError vm_name), h ++ [req]))
  /\ (count = 1 ->
      forall entities entity vmId,
        Py.getitem obj "entities" = Ok entities ->
        Py.getindex0 entities = Ok entity ->
        Py.getitem entity "vmId" = Ok (VStr vmId) ->
        exists vm_uuid,
          run = (Returns vm_uuid, h ++ [req])
          /\ suffix_after_last ":" vmId vm_uuid).
Proof.
  intros req run Hcheck Hreply Hstatus Hjson Hmeta Hcount. unfold run.
  pose proof (resolve_vm_uuid_counted self vm_name check_unique h r obj
                metadata (VInt count)) as ->; try done.
  fold req. apply Z.eqb_neq in Hcheck. rewrite Hcheck.
  cbn [negb Py.eq_0 Py.gt_1]. repeat split.
  - by intros ->.
  - intros Hmany.
    assert ((count =? 0) = false) as -> by lia.
    assert ((1 <? count) = true) as -> by lia. reflexivity.
  - intros -> entities entity vmId Hentities Hentity HvmId.
    cbn [Z.eqb Z.ltb Z.compare Pos.compare Pos.compare_cont].
    rewrite !bind_raise_if_false, Hentities, bind_lift_Ok, Hentity.
    rewrite bind_lift_Ok, HvmId, bind_lift_Ok. cbn [Py.rsplit1_value].
    rewrite bind_lift_Ok.
    destruct (rsplit1_last vmId ":") as (suffix & -> & Hsuffix).
    by exists suffix.
Qed.

(** C6. Without the uniqueness check the count is not looked at: when the
    response's entity list is empty, [resolve_vm_uuid] raises
    [IndexError] on taking its first entity, whatever the count. *)
Theorem resolve_vm_uuid_unchecked_empty (self : RestApiClient)
    (vm_name : string) (h : list Request) (r : Response)
    (obj metadata count : value) :
  let req := resolve_request self vm_name in
  cluster (h ++ [req]) = Responded r ->
  status_code r = codes_ok ->
  json r = Some obj ->
  Py.getitem obj "metadata" = Ok metadata ->
  Py.getitem metadata "count" = Ok count ->
  Py.getitem obj "entities" = Ok (VList []) ->
  resolve_vm_uuid cluster self vm_name 0 h = (Raises IndexError, h ++ [req]).
Proof.
  intros req Hreply Hstatus Hjson Hmeta Hcount Hentities.
  pose proof (resolve_vm_uuid_counted self vm_name 0 h r obj metadata count)
    as ->; try done.
  fold req. cbn [Z.eqb negb]. rewrite bind_ret, Hentities. reflexivity.
Qed.

(** *** After a clone or delete request *)

(** What both flows do with the reply to a clone or delete request: they
    go on with the task it names, or raise. *)
Lemma bind_submitted_task {A} (r : Response) (e : exn) (k : value -> M A)
    (h : list Request) :
  let run :=
    (raise_if (negb (status_code r =? codes_ok)) e ;;
     obj <- lift (Response_json r) ;;
     task_uuid <- lift (Py.getitem obj "taskUuid") ;;
     k task_uuid) h in
  match submitted_task r with
  | Some task_uuid => run = k task_uuid h
  | None => exists e', run = (Raises e', h)
  end.
Proof.
  unfold submitted_task, Response_json.
  destruct (status_code r =? codes_ok); [|by eexists].
  cbn [negb]. rewrite bind_raise_if_false.
  destruct (json r) as [obj|]; [|by eexists].
  rewrite bind_lift_Ok.
  destruct (Py.getitem obj "taskUuid") as [task_uuid|e']; [done|by eexists].
Qed.

(** [poll_task] sends polls of its task only. *)
Lemma poll_task_sends (self : RestApiClient) (task_uuid : value)
    (fuel : nat) (h : list Request) :
  exists o polls,
    poll_task cluster self fuel task_uuid h
    = (o, h ++ replicate polls (poll_request self task_uuid))
    /\ (o <> OutOfFuel -> (1 <= polls)%nat).
Proof.
  destruct (poll_task_loop_sends self task_uuid fuel h)
    as (o & polls & Hrun & _ & Hsome & _).
  by exists o, polls.
Qed.

(** *** The cleanup, turn by turn *)

(** A turn either runs to its end, or stops after one of its requests
    with what that request led to. *)
Lemma cleanup_clones_body_run (self : RestApiClient) (fuel : nat)
    (vm_name : string) (i : Z) (h : list Request) (o : outcome unit)
    (h' : list Request) :
  cleanup_clones_body cluster self fuel vm_name i h = (o, h') ->
  (exists turn,
     o = Returns tt
     /\ cleanup_turn_done cluster self fuel vm_name i h turn
     /\ h' = h ++ cleanup_turn_requests self vm_name i turn)
  \/ (o <> Returns tt
      /\ exists turn rest,
           rest <> []
           /\ rest `prefix_of` cleanup_turn_requests self vm_name i turn
           /\ h' = h ++ rest).
Proof.
  unfold cleanup_clones_body.
  set (name := vm_name +:+ "-" +:+ Py.str_int i).
  destruct (resolve_vm_uuid_sends self name 0 h) as (o1 & Hresolve & Ho1).
  unfold bind at 1. rewrite Hresolve.
  destruct o1 as [vm_uuid|e1|]; [| |done].
  2:{ intros [= <- <-]. right. split; [done|].
      exists (EmptyString, VNone, 0%nat), [resolve_request self name].
      split; [done|]. split; [|done]. apply prefix_cons, prefix_nil. }
  change (session_delete cluster _)
    with (send cluster (delete_request self vm_uuid)).
  assert (forall rest,
            (h ++ [resolve_request self name])
            ++ delete_request self vm_uuid :: rest
            = h ++ resolve_request self name
                   :: delete_request self vm_uuid :: rest) as Hsent.
  { intros rest. by rewrite <- app_assoc. }
  assert (forall task_uuid polls (o : outcome unit),
            o <> Returns tt ->
            o <> Returns tt
            /\ exists turn rest,
                 rest <> []
                 /\ rest `prefix_of` cleanup_turn_requests self vm_name i turn
                 /\ (h ++ [resolve_request self name])
                    ++ delete_request self vm_uuid
                       :: replicate polls (poll_request self task_uuid)
                    = h ++ rest) as Hstops.
  { intros task_uuid polls o' Ho'. split; [done|].
    exists (vm_uuid, task_uuid, polls). eexists.
    split; [|split; [|apply Hsent]]; done. }
  destruct (cluster ((h ++ [resolve_request self name])
                     ++ [delete_request self vm_uuid])) as [r|] eqn:Hreply.
  2:{ rewrite bind_send_Failed by done. intros [= <- <-]. right.
      by apply (Hstops VNone 0%nat). }
  rewrite bind_send_Responded with (r := r) by done.
  match goal with
  | |- context [raise_if _ ?e] =>
      pose proof (bind_submitted_task r e (poll_task cluster self fuel)
                    ((h ++ [resolve_request self name])
                     ++ [delete_request self vm_uuid])) as Hsub
  end.
  cbv zeta in Hsub.
  destruct (submitted_task r) as [task_uuid|] eqn:Htask.
  2:{ destruct Hsub as [e' ->]. intros [= <- <-]. right.
      by apply (Hstops VNone 0%nat). }
  rewrite Hsub.
  destruct (poll_task_sends self task_uuid fuel
              ((h ++ [resolve_request self name])
               ++ [delete_request self vm_uuid]))
    as (o2 & polls & Hpoll & Hpolls).
  rewrite Hpoll. intros [= <- <-]. rewrite <- (app_assoc _ [_]).
  destruct o2 as [[]|e2|]; [left|right; by apply Hstops..].
  exists (vm_uuid, task_uuid, polls). split; [done|].
  split; [|apply Hsent].
  split; [done|]. rewrite <- Hsent. split; [by exists r|].
  split; [|by apply Hpolls].
  rewrite Hpoll. f_equal. rewrite <- (app_assoc _ [_]). apply Hsent.
Qed.

Lemma seqZ_succ (i : Z) (n : nat) :
  seqZ i (Z.of_nat (S n)) = i :: seqZ (i + 1) (Z.of_nat n).
Proof.
  rewrite seqZ_cons by lia. do 2 f_equal; lia.
Qed.

(** The loop over the clones [i], ..., [i + n - 1]: the turns that ran to
    their ends, and for a run that does not return the turn that stopped
    it, whose outcome is the loop's. *)
Lemma cleanup_loop_run (self : RestApiClient) (fuel : nat) (vm_name : string)
    (n : nat) (i : Z) (h : list Request) (o : outcome unit)
    (h' : list Request) :
  for_each (seqZ i (Z.of_nat n)) (cleanup_clones_body cluster self fuel vm_name)
    h = (o, h') ->
  exists turns,
    let done := h ++ cleanup_requests self vm_name i turns in
    let next := i + Z.of_nat (length turns) in
    cleanup_turns_done cluster self fuel vm_name i h turns
    /\ match o with
       | Returns _ => length turns = n /\ h' = done
       | _ =>
           (length turns < n)%nat
           /\ cleanup_clones_body cluster self fuel vm_name next done = (o, h')
           /\ exists turn rest,
                rest <> []
                /\ rest `prefix_of`
                     cleanup_turn_requests self vm_name next turn
                /\ h' = done ++ rest
       end.
Proof.
  revert i h. induction n as [|n IH]; intros i h.
  - intros [= <- <-]. exists []. cbn. by rewrite app_nil_r.
  - rewrite seqZ_succ. cbn [for_each]. unfold bind at 1.
    destruct (cleanup_clones_body cluster self fuel vm_name i h)
      as [o1 h1] eqn:Hturn.
    destruct (cleanup_clones_body_run self fuel vm_name i h o1 h1 Hturn)
      as [(turn & -> & Hdone & ->)|(Ho1 & turn & rest & Hrest & Hprefix & ->)].
    + intros Hloop. destruct (IH _ _ Hloop) as (turns & Hturns & Hend).
      exists (turn :: turns). cbn [cleanup_requests cleanup_turns_done length].
      cbv zeta in Hend.
      rewrite <- app_assoc in Hend.
      replace (i + Z.of_nat (S (length turns)))
        with (i + 1 + Z.of_nat (length turns)) by lia.
      split; [done|].
      destruct o as [[]|e|].
      * destruct Hend as [<- ->]. done.
      * destruct Hend as (Hlt & Hbody & Hstop). split; [lia|]. done.
      * destruct Hend as (Hlt & Hbody & Hstop). split; [lia|]. done.
    + assert (forall (o' : outcome unit),
                (o1, h ++ rest) = (o', h') -> o' = o1 /\ h' = h ++ rest) as Heq.
      { by intros o' [= <- <-]. }
      assert (let done := h ++ cleanup_requests self vm_name i [] in
              let next := i + Z.of_nat (@length (string * value * nat) []) in
              (0 < S n)%nat
              /\ cleanup_clones_body cluster self fuel vm_name next done
                 = (o1, h ++ rest)
              /\ exists turn rest0,
                   rest0 <> []
                   /\ rest0 `prefix_of`
                        cleanup_turn_requests self vm_name next turn
                   /\ h ++ rest = done ++ rest0) as Hstop.
      { cbn. rewrite app_nil_r, Z.add_0_r. split; [lia|]. split; [done|].
        by exists turn, rest. }
      destruct o1 as [[]|e1|]; [done| |];
        intros [-> ->]%Heq; by exists [].
Qed.

Lemma range_seqZ (n : Z) : Py.range 0 n = seqZ 0 (Z.of_nat (Z.to_nat n)).
Proof.
  unfold Py.range, seqZ. by rewrite Z.sub_0_r, Nat2Z.id.
Qed.

(** A turn that does not run to its end has stopped in one of the ways of
    [cleanup_turn_stopped]. *)
Lemma cleanup_clones_body_stopped (self : RestApiClient) (fuel : nat)
    (vm_name : string) (i : Z) (h : list Request) (o : outcome unit)
    (h' : list Request) :
  cleanup_clones_body cluster self fuel vm_name i h = (o, h') ->
  o <> Returns tt ->
  cleanup_turn_stopped cluster self fuel vm_name i h o h'.
Proof.
  unfold cleanup_clones_body, cleanup_turn_stopped. cbv zeta.
  set (name := vm_name +:+ "-" +:+ Py.str_int i).
  destruct (resolve_vm_uuid_sends self name 0 h) as (o1 & Hresolve & Ho1).
  unfold bind at 1. rewrite Hresolve.
  destruct o1 as [vm_uuid|e1|]; [| |done].
  2:{ intros [= <- <-] _. left. by exists e1. }
  intros Hrun Ho. right. exists vm_uuid. split; [done|]. revert Hrun.
  change (session_delete cluster _)
    with (send cluster (delete_request self vm_uuid)).
  assert ((h ++ [resolve_request self name]) ++ [delete_request self vm_uuid]
          = h ++ [resolve_request self name; delete_request self vm_uuid])
    as Hsent by (by rewrite <- app_assoc).
  destruct (cluster ((h ++ [resolve_request self name])
                     ++ [delete_request self vm_uuid])) as [r|] eqn:Hreply.
  2:{ rewrite bind_send_Failed by done. intros [= <- <-]. left.
      by rewrite <- Hsent. }
  rewrite bind_send_Responded with (r := r) by done.
  rewrite Hsent in *. intros Hrun. right. exists r. split; [done|].
  revert Hrun. unfold submitted_task, Response_json.
  destruct (status_code r =? codes_ok) eqn:Hstatus; cbn [negb].
  - apply Z.eqb_eq in Hstatus. rewrite bind_raise_if_false.
    destruct (json r) as [obj|].
    + rewrite bind_lift_Ok.
      destruct (Py.getitem obj "taskUuid") as [task_uuid|e] eqn:Htask.
      * rewrite bind_lift_Ok. intros Hpoll. right. right. by exists task_uuid.
      * rewrite bind_lift_Err. intros [= <- <-]. right. left.
        split; [done|]. split; [by exists e|done].
    + rewrite bind_lift_Err. intros [= <- <-]. right. left.
      split; [done|]. split; [by exists ValueError|done].
  - apply Z.eqb_neq in Hstatus. rewrite bind_raise_if_true.
    intros [= <- <-]. by left.
Qed.

(** *** The exceptions of the cleanup *)

Lemma raises_only_ret {A} (P : exn -> Prop) (a : A) : raises_only P (ret a).
Proof. intros h e h'. discriminate. Qed.

Lemma raises_only_raise {A} (P : exn -> Prop) (e : exn) :
  P e -> raises_only P (@raise A e).
Proof. by intros He h e' h' [= <- _]. Qed.

Lemma raises_only_raise_if (P : exn -> Prop) (b : bool) (e : exn) :
  P e -> raises_only P (raise_if b e).
Proof.
  intros He. destruct b; [by apply raises_only_raise|apply raises_only_ret].
Qed.

Lemma raises_only_lift {A} (P : exn -> Prop) (m : result A) :
  (forall e, m = Err e -> P e) -> raises_only P (lift m).
Proof.
  intros Hm. destruct m as [a|e]; [apply raises_only_ret|].
  apply raises_only_raise. by apply Hm.
Qed.

Lemma raises_only_bind {A B} (P : exn -> Prop) (m : M A) (k : A -> M B) :
  raises_only P m -> (forall a, raises_only P (k a)) ->
  raises_only P (bind m k).
Proof.
  intros Hm Hk h e h'. unfold bind.
  destruct (m h) as [[a|e1|] h1] eqn:Hrun; [apply Hk| |discriminate].
  intros [= <- _]. by apply (Hm h e1 h1).
Qed.

Lemma raises_only_send (P : exn -> Prop) (req : Request) :
  P RequestException -> raises_only P (send cluster req).
Proof.
  intros He h e h'. unfold send.
  destruct (cluster (h ++ [req])); [discriminate|]. by intros [= <- _].
Qed.

Lemma raises_only_for_each (P : exn -> Prop) (xs : list Z)
    (body : Z -> M unit) :
  (forall x, raises_only P (body x)) -> raises_only P (for_each xs body).
Proof.
  intros Hbody. induction xs as [|x xs IH]; [apply raises_only_ret|].
  cbn [for_each]. by apply raises_only_bind.
Qed.

Lemma builtin_not_count_error (e : exn) : builtin e -> not_count_error e.
Proof. intros He vm_name. by destruct e. Qed.

Lemma getitem_builtin (v : value) (key : string) (e : exn) :
  Py.getitem v key = Err e -> builtin e.
Proof.
  destruct v as [| | | | | |d]; try by intros [= <-].
  cbn [Py.getitem]. destruct (d !! key); [discriminate|by intros [= <-]].
Qed.

Lemma getindex0_builtin (v : value) (e : exn) :
  Py.getindex0 v = Err e -> builtin e.
Proof.
  destruct v as [| | | |[|c s]|[|x l]|d]; by intros [= <-].
Qed.

Lemma get_builtin (v : value) (key : string) (e : exn) :
  Py.get v key = Err e -> builtin e.
Proof. destruct v; by intros [= <-]. Qed.

Lemma rsplit1_value_builtin (v : value) (sep : ascii) (e : exn) :
  Py.rsplit1_value v sep = Err e -> builtin e.
Proof. destruct v; by intros [= <-]. Qed.

Lemma getitem_last_builtin (parts : list string) (e : exn) :
  Py.getitem_last parts = Err e -> builtin e.
Proof.
  unfold Py.getitem_last. destruct (last parts); [discriminate|].
  by intros [= <-].
Qed.

Lemma Response_json_builtin (r : Response) (e : exn) :
  Response_json r = Err e -> builtin e.
Proof.
  unfold Response_json. destruct (json r); [discriminate|]. by intros [= <-].
Qed.

#[local] Ltac builtin_error :=
  intros ? ?; apply builtin_not_count_error;
  eauto using getitem_builtin, getindex0_builtin, get_builtin,
    rsplit1_value_builtin, getitem_last_builtin, Response_json_builtin.

#[local] Ltac not_count_error_step :=
  first
    [ apply raises_only_bind; [|intros ?]
    | apply raises_only_ret
    | apply raises_only_send; by apply builtin_not_count_error
    | apply raises_only_raise_if; intros ?; split; discriminate
    | apply raises_only_raise; intros ?; split; discriminate
    | apply raises_only_lift; builtin_error ].

(** The resolution without the uniqueness check raises neither of the
    check's exceptions. *)
Lemma resolve_vm_uuid_unchecked_raises (self : RestApiClient)
    (vm_name : string) :
  raises_only not_count_error (resolve_vm_uuid cluster self vm_name 0).
Proof.
  unfold resolve_vm_uuid, session_get. cbn [Z.eqb negb].
  repeat not_count_error_step.
Qed.

Lemma poll_task_raises (self : RestApiClient) (fuel : nat)
    (task_uuid : value) :
  raises_only not_count_error (poll_task cluster self fuel task_uuid).
Proof.
  unfold poll_task.
  generalize (acro_url self ("tasks/" +:+ str_value task_uuid +:+ "/poll") []).
  intros url. induction fuel as [|fuel IH]; [by intros h e h'|].
  cbn [poll_task_loop]. unfold session_get.
  repeat not_count_error_step.
  destruct (Py.is_None _); [exact IH|].
  repeat not_count_error_step.
  destruct (Py.eq_str _ _); repeat not_count_error_step.
Qed.

Lemma cleanup_clones_body_raises (self : RestApiClient) (fuel : nat)
    (vm_name : string) (i : Z) :
  raises_only not_count_error (cleanup_clones_body cluster self fuel vm_name i).
Proof.
  unfold cleanup_clones_body, session_delete.
  apply raises_only_bind; [apply resolve_vm_uuid_unchecked_raises|].
  intros vm_uuid. repeat not_count_error_step.
  apply poll_task_raises.
Qed.

(** C4. The cleanup takes the clones in the order 0, 1, ...: each turn
    that runs to its end resolves the name [vm_name-i] without the
    uniqueness check, asks for the deletion of what it resolved to, and
    polls the task of that deletion until it returns, all before the next
    turn starts. A run that returns has made all [num_clones] turns. A run
    that does not return has stopped in the first turn that did not run to
    its end, and nothing is sent after the request that turn stopped at (no
    later deletion). Its outcome is that turn's: the failure of the
    resolution without the uniqueness check (whatever count the reply
    reports), or of the deletion of what the name resolved to, or of the
    polling of the deletion's task. In particular no run of the cleanup
    ends with the not-found or the not-unique exception of the uniqueness
    check. *)
Theorem cleanup_clones_in_order (self : RestApiClient) (fuel : nat)
    (vm_name : string) (num_clones : Z) (h : list Request)
    (o : outcome unit) (h' : list Request) :
  cleanup_clones cluster self fuel vm_name num_clones h = (o, h') ->
  (exists turns,
     let done := h ++ cleanup_requests self vm_name 0 turns in
     let next := Z.of_nat (length turns) in
     cleanup_turns_done cluster self fuel vm_name 0 h turns
     /\ match o with
        | Returns _ => length turns = Z.to_nat num_clones /\ h' = done
        | _ =>
            (length turns < Z.to_nat num_clones)%nat
            /\ cleanup_clones_body cluster self fuel vm_name next done
               = (o, h')
            /\ cleanup_turn_stopped cluster self fuel vm_name next done o h'
            /\ exists turn rest,
                 rest <> []
                 /\ rest `prefix_of`
                      cleanup_turn_requests self vm_name next turn
                 /\ h' = done ++ rest
        end)
  /\ (forall e, o = Raises e -> not_count_error e).
Proof.
  unfold cleanup_clones. intros Hrun. split.
  - rewrite range_seqZ in Hrun.
    destruct (cleanup_loop_run self fuel vm_name _ 0 h o h' Hrun)
      as (turns & Hturns & Hend). exists turns. cbv zeta in Hend |- *.
    rewrite Z.add_0_l in Hend. split; [done|].
    destruct o as [[]|e|]; [done| |];
      destruct Hend as (Hlt & Hbody & Hstop);
      (split; [done|]); (split; [done|]); (split; [|done]);
      by apply cleanup_clones_body_stopped.
  - intros e ->. revert Hrun. apply raises_only_for_each.
    intros i. apply cleanup_clones_body_raises.
Qed.

(** *** The clone flow *)

(** [create_clones] sends at most the clone request and polls of one
    task; when it returns it has sent the request built from the
    descriptor and polled the task the reply named. *)
Lemma create_clones_run (self : RestApiClient) (fuel : nat)
    (vm_uuid : string) (vm_info : value) (num_clones : Z)
    (h : list Request) (o : outcome unit) (h' : list Request) :
  create_clones cluster self fuel vm_uuid vm_info num_clones h = (o, h') ->
  exists cloneSpec task_uuid polls sent,
    let all := clone_request self vm_uuid cloneSpec
               :: replicate polls (poll_request self task_uuid) in
    h' = h ++ sent
    /\ sent `prefix_of` all
    /\ (o = Returns tt ->
        sent = all
        /\ (1 <= polls)%nat
        /\ construct_vm_clone_proto vm_uuid vm_info num_clones = Ok cloneSpec
        /\ exists r,
             cluster (h ++ [clone_request self vm_uuid cloneSpec])
             = Responded r
             /\ submitted_task r = Some task_uuid).
Proof.
  unfold create_clones.
  destruct (construct_vm_clone_proto vm_uuid vm_info num_clones)
    as [cloneSpec|e] eqn:Hbuilt.
  2:{ rewrite bind_lift_Err. intros [= <- <-].
      exists VNone, VNone, 0%nat, []. cbn zeta. rewrite app_nil_r.
      split; [done|]. split; [apply prefix_nil|done]. }
  rewrite bind_lift_Ok.
  change (session_post cluster _ _)
    with (send cluster (clone_request self vm_uuid cloneSpec)).
  assert (forall task_uuid polls,
            [clone_request self vm_uuid cloneSpec]
            `prefix_of` clone_request self vm_uuid cloneSpec
                        :: replicate polls (poll_request self task_uuid))
    as Hprefix.
  { intros task_uuid polls. apply prefix_cons, prefix_nil. }
  destruct (cluster (h ++ [clone_request self vm_uuid cloneSpec]))
    as [r|] eqn:Hreply.
  2:{ rewrite bind_send_Failed by done. intros [= <- <-].
      exists cloneSpec, VNone, 0%nat, [clone_request self vm_uuid cloneSpec].
      by cbn zeta. }
  rewrite bind_send_Responded with (r := r) by done.
  match goal with
  | |- context [raise_if _ ?e] =>
      pose proof (bind_submitted_task r e (poll_task cluster self fuel)
                    (h ++ [clone_request self vm_uuid cloneSpec])) as Hsub
  end.
  cbv zeta in Hsub.
  destruct (submitted_task r) as [task_uuid|] eqn:Htask.
  2:{ destruct Hsub as [e' ->]. intros [= <- <-].
      exists cloneSpec, VNone, 0%nat, [clone_request self vm_uuid cloneSpec].
      by cbn zeta. }
  rewrite Hsub.
  destruct (poll_task_sends self task_uuid fuel
              (h ++ [clone_request self vm_uuid cloneSpec]))
    as (o2 & polls & -> & Hpolls).
  intros [= <- <-]. rewrite <- app_assoc.
  exists cloneSpec, task_uuid, polls. eexists. cbn zeta.
  split; [reflexivity|]. split; [done|]. intros ->.
  split; [done|]. split; [by apply Hpolls|]. split; [done|]. by exists r.
Qed.

(** C5. For every name and count the clone flow sends, in this order and
    nothing else: one name query, resolved with the uniqueness check; one
    descriptor request; one clone request, whose body is the dump of the
    request built from the descriptor, with all [num_clones]
    specifications under [specList]; and polls of the one task the reply
    to the clone request named. A run that stops early has sent a
    beginning of that list: never a second clone request, never polls of
    another task. *)
Theorem clone_sends_one_batch (FLAGS : Flags) (fuel : nat)
    (c : RestApiClient) (name : string) (h : list Request)
    (o : outcome unit) (h' : list Request) :
  vm_name FLAGS = Some name ->
  clone cluster FLAGS fuel c h = (o, h') ->
  exists vm_uuid cloneSpec task_uuid polls sent,
    let all := clone_flow_requests c name vm_uuid cloneSpec task_uuid polls in
    let h1 := h ++ [resolve_request c name] in
    let h2 := h1 ++ [info_request c vm_uuid] in
    h' = h ++ sent
    /\ sent `prefix_of` all
    /\ (o = Returns tt ->
        sent = all
        /\ (1 <= polls)%nat
        /\ resolve_vm_uuid cluster c name 1 h = (Returns vm_uuid, h1)
        /\ exists vm_info specs,
             get_vm_info cluster c vm_uuid h1 = (Returns vm_info, h2)
             /\ construct_vm_clone_proto vm_uuid vm_info (num_clones FLAGS)
                = Ok cloneSpec
             /\ cloneSpec = VDict {[ "specList" := VList specs ]}
             /\ length specs = Z.to_nat (num_clones FLAGS)
             /\ exists r,
                  cluster (h2 ++ [clone_request c vm_uuid cloneSpec])
                  = Responded r
                  /\ submitted_task r = Some task_uuid).
Proof.
  intros Hname. unfold clone. rewrite Hname.
  destruct (resolve_vm_uuid_sends c name 1 h) as (o1 & Hresolve & Ho1).
  unfold bind at 1. rewrite Hresolve.
  destruct o1 as [vm_uuid|e1|]; [| |done].
  2:{ intros [= <- <-].
      exists EmptyString, VNone, VNone, 0%nat, [resolve_request c name].
      cbn zeta. split; [done|]. split; [|done].
      apply prefix_cons, prefix_nil. }
  destruct (get_vm_info_sends c vm_uuid (h ++ [resolve_request c name]))
    as (o2 & Hinfo & Ho2).
  unfold bind at 1. rewrite Hinfo.
  destruct o2 as [vm_info|e2|]; [| |done].
  2:{ intros [= <- <-].
      exists vm_uuid, VNone, VNone, 0%nat,
        [resolve_request c name; info_request c vm_uuid].
      cbn zeta. split; [by rewrite <- app_assoc|]. split; [|done].
      do 2 apply prefix_cons. apply prefix_nil. }
  intros Hcreate.
  destruct (create_clones_run c fuel vm_uuid vm_info (num_clones FLAGS)
              _ _ _ Hcreate)
    as (cloneSpec & task_uuid & polls & sent & -> & Hprefix & Hreturns).
  exists vm_uuid, cloneSpec, task_uuid, polls,
    (resolve_request c name :: info_request c vm_uuid :: sent).
  cbn zeta. split; [by rewrite <- !app_assoc|].
  split; [by do 2 apply prefix_cons|].
  intros ->. destruct Hreturns as (-> & Hpolls & Hbuilt & Hreply); [done|].
  split; [done|]. split; [done|]. split; [done|].
  destruct (construct_vm_clone_proto_Ok _ _ _ _ Hbuilt)
    as (specs & Hspecs & Hlength & _).
  by exists vm_info, specs.
Qed.

(** *** The command line *)

(** C9. Without a VM name both flows raise on their first statement, and
    so does [main], whatever the mode: nothing is sent (building the client
    and its session sends nothing). With a mode other than ["clone"] and
    ["cleanup"], [main] raises, again before anything is sent: the
    exception leaves [main] and ends the process. *)
Theorem main_rejects_bad_invocation (FLAGS : Flags) (fuel : nat)
    (h : list Request) :
  (vm_name FLAGS = None ->
   (forall c, clone cluster FLAGS fuel c h = (Raises AssertionError, h))
   /\ (forall c, cleanup cluster FLAGS fuel c h = (Raises AssertionError, h))
   /\ exists e, main cluster FLAGS fuel h = (Raises e, h)
                /\ InvalidArgumentError e)
  /\ (action FLAGS <> Some "clone" ->
      action FLAGS <> Some "cleanup" ->
      exists e, main cluster FLAGS fuel h = (Raises e, h)
                /\ InvalidArgumentError e).
Proof.
  unfold main, clone, cleanup, InvalidArgumentError. split.
  - intros ->. split; [done|]. split; [done|].
    destruct (action FLAGS) as [act|]; [|by eexists; eauto].
    destruct (flag_cluster_ip FLAGS) as [ip|]; [|by eexists; eauto].
    destruct (String.eqb act "clone"); [by eexists; eauto|].
    destruct (String.eqb act "cleanup"); by eexists; eauto.
  - intros Hclone Hcleanup.
    destruct (action FLAGS) as [act|]; [|by eexists; eauto].
    destruct (flag_cluster_ip FLAGS) as [ip|]; [|by eexists; eauto].
    destruct (String.eqb_spec act "clone") as [->|_]; [done|].
    destruct (String.eqb_spec act "cleanup") as [->|_]; [done|].
    by eexists; eauto.
Qed.

(** *** More on resolving a name *)

(** X10. Splitting at the last separator loses nothing: [rsplit] gives one
    part when the text has no separator and two parts otherwise, and
    joining the parts with the separator gives the text back. *)
Theorem rsplit1_join (s : string) (sep : ascii) :
  String.concat (String sep EmptyString) (Py.rsplit1 s sep) = s
  /\ (1 <= length (Py.rsplit1 s sep) <= 2)%nat
  /\ (length (Py.rsplit1 s sep) = 1%nat
      <-> ~ In sep (list_ascii_of_string s)).
Proof.
  unfold Py.rsplit1.
  destruct (Py.split_last sep s) as [[pre suf]|] eqn:Hsplit.
  - apply split_last_Some in Hsplit as [-> _].
    split; [done|]. split; [simpl; lia|]. split; [done|].
    intros Hnot. exfalso. apply Hnot. clear Hnot.
    induction pre as [|c pre IH]; [by left|by right].
  - split; [done|]. split; [simpl; lia|]. split; [|done].
    intros _. by apply split_last_None.
Qed.

(** X11. Whatever the uniqueness flag, a response to the name query with
    a status other than 200 makes [resolve_vm_uuid] raise the exception
    that names the URL and the status, and no answer at all makes it raise
    the library's exception; the body is not looked at. *)
Theorem resolve_vm_uuid_http_error (self : RestApiClient) (vm_name : string)
    (check_unique : Z) (h : list Request) :
  let req := resolve_request self vm_name in
  (forall r,
     cluster (h ++ [req]) = Responded r ->
     status_code r <> codes_ok ->
     resolve_vm_uuid cluster self vm_name check_unique h
     = (Raises (Exception ("GET " +:+ req_url req +:+ ": "
                           +:+ Py.str_int (status_code r))),
        h ++ [req]))
  /\ (cluster (h ++ [req]) = Failed ->
      resolve_vm_uuid cluster self vm_name check_unique h
      = (Raises RequestException, h ++ [req])).
Proof.
  intros req. unfold resolve_vm_uuid.
  change (session_get cluster _) with (send cluster req). split.
  - intros r Hreply Hstatus.
    rewrite bind_send_Responded with (r := r) by done.
    apply Z.eqb_neq in Hstatus. rewrite Hstatus. reflexivity.
  - intros Hreply. by rewrite bind_send_Failed.
Qed.

(** X12. Without the uniqueness check the reported count plays no part:
    whatever it is (zero, five, not a number), a successful response
    whose first entity has a text [vmId] resolves to what follows the last
    [":"] of it. With several matches the first one is taken. *)
Theorem resolve_vm_uuid_unchecked_first (self : RestApiClient)
    (vm_name : string) (h : list Request) (r : Response)
    (obj metadata count entities entity : value) (vmId : string) :
  let req := resolve_request self vm_name in
  cluster (h ++ [req]) = Responded r ->
  status_code r = codes_ok ->
  json r = Some obj ->
  Py.getitem obj "metadata" = Ok metadata ->
  Py.getitem metadata "count" = Ok count ->
  Py.getitem obj "entities" = Ok entities ->
  Py.getindex0 entities = Ok entity ->
  Py.getitem entity "vmId" = Ok (VStr vmId) ->
  exists vm_uuid,
    resolve_vm_uuid cluster self vm_name 0 h = (Returns vm_uuid, h ++ [req])
    /\ suffix_after_last ":" vmId vm_uuid.
Proof.
  intros req Hreply Hstatus Hjson Hmeta Hcount Hentities Hentity HvmId.
  pose proof (resolve_vm_uuid_counted self vm_name 0 h r obj metadata count)
    as ->; try done.
  fold req. cbn [Z.eqb negb].
  rewrite bind_ret, Hentities, bind_lift_Ok, Hentity, bind_lift_Ok, HvmId.
  rewrite bind_lift_Ok. cbn [Py.rsplit1_value]. rewrite bind_lift_Ok.
  destruct (rsplit1_last vmId ":") as (suffix & -> & Hsuffix).
  by exists suffix.
Qed.

(** X13. The count is read even when it is not checked: a successful
    response whose body is a dict without [metadata], or whose [metadata]
    is a dict without [count], makes [resolve_vm_uuid] raise [KeyError],
    with or without the uniqueness check and whatever the entities. *)
Theorem resolve_vm_uuid_needs_count (self : RestApiClient)
    (vm_name : string) (check_unique : Z) (h : list Request) (r : Response)
    (obj metadata : gmap string value) :
  let req := resolve_request self vm_name in
  cluster (h ++ [req]) = Responded r ->
  status_code r = codes_ok ->
  json r = Some (VDict obj) ->
  obj !! "metadata" = None
  \/ (obj !! "metadata" = Some (VDict metadata)
      /\ metadata !! "count" = None) ->
  resolve_vm_uuid cluster self vm_name check_unique h
  = (Raises KeyError, h ++ [req]).
Proof.
  intros req Hreply Hstatus Hjson Hmissing. unfold resolve_vm_uuid.
  change (session_get cluster _) with (send cluster req).
  rewrite bind_send_Responded with (r := r) by done.
  apply Z.eqb_eq in Hstatus. rewrite Hstatus. cbn [negb].
  rewrite bind_raise_if_false. unfold Response_json. rewrite Hjson.
  rewrite bind_lift_Ok.
  change (Py.getitem (VDict obj) "metadata")
    with (match obj !! "metadata" with
          | Some x => Ok x
          | None => Err KeyError
          end).
  destruct Hmissing as [->|[-> Hcount]]; [done|].
  rewrite bind_lift_Ok.
  change (Py.getitem (VDict metadata) "count")
    with (match metadata !! "count" with
          | Some x => Ok x
          | None => Err KeyError
          end).
  by rewrite Hcount.
Qed.

(** *** More on the descriptor *)

(** X14. [get_vm_info] sends one request, for the VM's configuration.
    It returns the decoded body of a response with status 200; for any
    other status it raises the exception that names the URL and the
    status; when the body of a 200 response is not JSON, decoding it
    raises [ValueError]. *)
Theorem get_vm_info_outcome (self : RestApiClient) (vm_uuid : string)
    (h : list Request) (r : Response) :
  let req := info_request self vm_uuid in
  cluster (h ++ [req]) = Responded r ->
  get_vm_info cluster self vm_uuid h
  = (if status_code r =? codes_ok then
       match json r with
       | Some vm_info => Returns vm_info
       | None => Raises ValueError
       end
     else Raises (Exception ("GET " +:+ req_url req +:+ ": "
                             +:+ Py.str_int (status_code r))),
     h ++ [req]).
Proof.
  intros req Hreply. unfold get_vm_info.
  change (session_get cluster _) with (send cluster req).
  rewrite bind_send_Responded with (r := r) by done.
  destruct (status_code r =? codes_ok); [|done].
  cbn [negb]. rewrite bind_raise_if_false. unfold Response_json.
  by destruct (json r).
Qed.

(** *** More on polling *)

(** Polls that leave the task pending are skipped one by one. *)
Lemma poll_task_loop_skip_pending (self : RestApiClient) (task_uuid : value)
    (k fuel : nat) (h : list Request) :
  let req := poll_request self task_uuid in
  (forall j, (j < k)%nat ->
     still_pending (cluster (h ++ replicate (S j) req)) = true) ->
  poll_task_loop cluster (k + fuel) (req_url req) task_uuid h
  = poll_task_loop cluster fuel (req_url req) task_uuid
      (h ++ replicate k req).
Proof.
  intros req. revert h. induction k as [|k IH]; intros h Hpending.
  - cbn [replicate]. by rewrite app_nil_r.
  - pose proof (poll_task_loop_turn self task_uuid (k + fuel) h) as Hturn.
    cbv zeta in Hturn. fold req in Hturn.
    destruct Hturn as [[_ Hturn]|[Hends _]].
    + cbn [Nat.add]. rewrite Hturn, IH.
      * by rewrite <- app_assoc.
      * intros j Hj. rewrite <- app_assoc. apply (Hpending (S j)). lia.
    + pose proof (Hpending 0%nat) as Hfirst. cbn [replicate] in Hfirst.
      rewrite Hfirst in Hends by lia. done.
Qed.

(** X15. However many polls left the task pending before, a poll answered
    with a status other than 200 ends [poll_task] with the exception that
    names the URL and the status, and a poll with no answer ends it with
    the library's exception: no poll is sent again after a failed one. *)
Theorem poll_task_http_error (self : RestApiClient) (task_uuid : value)
    (fuel k : nat) (h : list Request) :
  let req := poll_request self task_uuid in
  (k < fuel)%nat ->
  (forall j, (j < k)%nat ->
     still_pending (cluster (h ++ replicate (S j) req)) = true) ->
  (forall r,
     cluster (h ++ replicate (S k) req) = Responded r ->
     status_code r <> codes_ok ->
     poll_task cluster self fuel task_uuid h
     = (Raises (Exception ("GET " +:+ req_url req +:+ ": "
                           +:+ Py.str_int (status_code r))),
        h ++ replicate (S k) req))
  /\ (cluster (h ++ replicate (S k) req) = Failed ->
      poll_task cluster self fuel task_uuid h
      = (Raises RequestException, h ++ replicate (S k) req)).
Proof.
  intros req Hfuel Hpending. unfold poll_task.
  change (acro_url _ _ _) with (req_url req).
  replace fuel with (k + S (fuel - S k))%nat by lia.
  pose proof (poll_task_loop_skip_pending self task_uuid k (S (fuel - S k)) h)
    as Hskip.
  cbv zeta in Hskip. fold req in Hskip. rewrite Hskip by done.
  replace (h ++ replicate (S k) req) with ((h ++ replicate k req) ++ [req]).
  2:{ by rewrite <- app_assoc, <- replicate_S_end. }
  cbn [poll_task_loop].
  change (session_get cluster (req_url req)) with (send cluster req).
  split.
  - intros r Hreply Hstatus.
    rewrite bind_send_Responded with (r := r) by done.
    apply Z.eqb_neq in Hstatus. rewrite Hstatus. reflexivity.
  - intros Hreply. by rewrite bind_send_Failed.
Qed.

(** X16. A completion field that is there but not as the script expects
    ends the polling with a lookup error: [KeyError] when it is a dict
    without [error], and also when its [error] is other than ["kNoError"]
    and it has no [errorDetail] (the task failure is then not reported as
    such); [TypeError] when it is not a dict. *)
Theorem poll_task_malformed_completion (self : RestApiClient)
    (task_uuid : value) (fuel : nat) (h : list Request) (r : Response)
    (mr : value) :
  let req := poll_request self task_uuid in
  let run := poll_task cluster self (S fuel) task_uuid h in
  cluster (h ++ [req]) = Responded r ->
  completes_with r mr ->
  mr <> VNone ->
  (forall d, mr = VDict d -> d !! "error" = None ->
             run = (Raises KeyError, h ++ [req]))
  /\ (forall d error, mr = VDict d -> d !! "error" = Some error ->
                      error <> VStr "kNoError" -> d !! "errorDetail" = None ->
                      run = (Raises KeyError, h ++ [req]))
  /\ ((forall d, mr <> VDict d) -> run = (Raises TypeError, h ++ [req])).
Proof.
  intros req run Hreply [Hstatus Hfield] Hmr.
  apply completion_field_Some in Hfield
    as (obj & task_info & Hjson & Hinfo & Hmeta).
  assert (Py.is_None mr = false) as Hnone by (by destruct mr).
  assert (run
          = (error <- lift (Py.getitem mr "error") ;;
             if Py.eq_str error "kNoError" then ret tt
             else
               errorDetail <- lift (Py.getitem mr "errorDetail") ;;
               raise (TaskFailedError task_uuid error errorDetail))
              (h ++ [req])) as ->.
  { unfold run, poll_task. change (acro_url _ _ _) with (req_url req).
    cbn [poll_task_loop].
    change (session_get cluster (req_url req)) with (send cluster req).
    rewrite bind_send_Responded with (r := r) by done.
    apply Z.eqb_eq in Hstatus. rewrite Hstatus. cbn [negb].
    rewrite bind_raise_if_false. unfold Response_json. rewrite Hjson.
    rewrite bind_lift_Ok.
    change (Py.getitem (VDict obj) "taskInfo")
      with (match obj !! "taskInfo" with
            | Some x => Ok x
            | None => Err KeyError
            end).
    rewrite Hinfo, bind_lift_Ok. unfold Py.get. rewrite Hmeta.
    cbn [default from_option id]. rewrite bind_lift_Ok, Hnone.
    destruct (Py.getitem mr "error") as [error|e]; [|done].
    rewrite !bind_lift_Ok. by destruct (Py.eq_str error "kNoError"). }
  repeat split.
  - intros d -> Herror. unfold Py.getitem. by rewrite Herror.
  - intros d error -> Herror Hsentinel Hdetail. unfold Py.getitem.
    rewrite Herror, bind_lift_Ok, Hdetail.
    assert (Py.eq_str error "kNoError" = false) as ->; [|done].
    destruct error as [| | | |s| |]; try reflexivity.
    cbn [Py.eq_str]. apply String.eqb_neq. congruence.
  - intros Hnotdict. destruct mr; try done. by destruct (Hnotdict d).
Qed.

(** *** More on the two flows *)

(** X18. With a count of zero or below the cleanup returns at once:
    nothing is resolved, nothing is deleted, nothing is sent. *)
Theorem cleanup_clones_no_clones (self : RestApiClient) (fuel : nat)
    (vm_name : string) (num_clones : Z) (h : list Request) :
  num_clones <= 0 ->
  cleanup_clones cluster self fuel vm_name num_clones h = (Returns tt, h).
Proof.
  intros Hcount. unfold cleanup_clones, Py.range.
  by rewrite seqZ_nil by lia.
Qed.

(** X19. A descriptor from which no request can be built is rejected
    before anything is sent: [create_clones] raises what the building
    raised and sends no clone request. *)
Theorem create_clones_bad_descriptor (self : RestApiClient) (fuel : nat)
    (vm_uuid : string) (vm_info : value) (num_clones : Z) (e : exn)
    (h : list Request) :
  construct_vm_clone_proto vm_uuid vm_info num_clones = Err e ->
  create_clones cluster self fuel vm_uuid vm_info num_clones h
  = (Raises e, h).
Proof.
  intros Hbuilt. unfold create_clones. by rewrite Hbuilt.
Qed.

(** X20. With a count of zero or below the clone request is still sent,
    with an empty [specList]: [create_clones] does not return early, and
    what follows is up to the cluster's answer. *)
Theorem create_clones_no_clones (self : RestApiClient) (fuel : nat)
    (vm_uuid : string) (vm_info config numVcpus name memoryMb : value)
    (num_clones : Z) (h : list Request) :
  Py.getitem vm_info "config" = Ok config ->
  Py.getitem config "numVcpus" = Ok numVcpus ->
  Py.getitem config "name" = Ok name ->
  Py.getitem config "memoryMb" = Ok memoryMb ->
  num_clones <= 0 ->
  exists o rest,
    create_clones cluster self fuel vm_uuid vm_info num_clones h
    = (o, h ++ clone_request self vm_uuid (VDict {[ "specList" := VList [] ]})
               :: rest).
Proof.
  intros Hconfig Hcpu Hname Hmem Hcount. unfold create_clones.
  rewrite (construct_vm_clone_proto_empty_range vm_uuid vm_info config
             numVcpus name memoryMb num_clones) by done.
  rewrite bind_lift_Ok.
  set (req := clone_request self vm_uuid (VDict {[ "specList" := VList [] ]})).
  change (session_post cluster _ _) with (send cluster req).
  destruct (cluster (h ++ [req])) as [r|] eqn:Hreply.
  2:{ rewrite bind_send_Failed by done.
      by exists (Raises RequestException), []. }
  rewrite bind_send_Responded with (r := r) by done.
  match goal with
  | |- context [raise_if _ ?e] =>
      pose proof (bind_submitted_task r e (poll_task cluster self fuel)
                    (h ++ [req])) as Hsub
  end.
  cbv zeta in Hsub.
  destruct (submitted_task r) as [task_uuid|].
  - rewrite Hsub.
    destruct (poll_task_sends self task_uuid fuel (h ++ [req]))
      as (o & polls & -> & _).
    exists o, (replicate polls (poll_request self task_uuid)).
    by rewrite <- app_assoc.
  - destruct Hsub as [e' ->]. by exists (Raises e'), [].
Qed.

(** What every request of a flow has in common, from what the five kinds of
    request have. *)
Lemma Forall_prefix_of {A} (P : A -> Prop) (l1 l2 : list A) :
  l1 `prefix_of` l2 -> Forall P l2 -> Forall P l1.
Proof. intros [k ->] Hall. by apply Forall_app in Hall as []. Qed.

Lemma clone_requests_all (P : Request -> Prop) (FLAGS : Flags) (fuel : nat)
    (c : RestApiClient) (h : list Request) (o : outcome unit)
    (h' : list Request) :
  (forall name, P (resolve_request c name)) ->
  (forall vm_uuid, P (info_request c vm_uuid)) ->
  (forall vm_uuid cloneSpec, P (clone_request c vm_uuid cloneSpec)) ->
  (forall task_uuid, P (poll_request c task_uuid)) ->
  clone cluster FLAGS fuel c h = (o, h') ->
  exists sent, h' = h ++ sent /\ Forall P sent.
Proof.
  intros Hresolve Hinfo Hclone Hpoll. unfold clone.
  destruct (vm_name FLAGS) as [name|].
  2:{ intros [= <- <-]. exists []. by rewrite app_nil_r. }
  destruct (resolve_vm_uuid_sends c name 1 h) as (o1 & Hrun1 & Ho1).
  unfold bind at 1. rewrite Hrun1.
  destruct o1 as [vm_uuid|e1|]; [| |done].
  2:{ intros [= <- <-]. eexists. split; [done|]. by constructor. }
  destruct (get_vm_info_sends c vm_uuid (h ++ [resolve_request c name]))
    as (o2 & Hrun2 & Ho2).
  unfold bind at 1. rewrite Hrun2.
  destruct o2 as [vm_info|e2|]; [| |done].
  2:{ intros [= <- <-]. exists [resolve_request c name; info_request c vm_uuid].
      split; [by rewrite <- app_assoc|]. by repeat constructor. }
  intros Hcreate.
  destruct (create_clones_run c fuel vm_uuid vm_info (num_clones FLAGS)
              _ _ _ Hcreate)
    as (cloneSpec & task_uuid & polls & sent & -> & Hprefix & _).
  exists (resolve_request c name :: info_request c vm_uuid :: sent).
  split; [by rewrite <- !app_assoc|].
  do 2 (constructor; [done|]).
  apply (Forall_prefix_of _ _ _ Hprefix). constructor; [done|].
  by apply Forall_replicate.
Qed.

Lemma cleanup_turn_requests_all (P : Request -> Prop) (self : RestApiClient)
    (vm_name : string) (i : Z) (turn : string * value * nat) :
  (forall name, P (resolve_request self name)) ->
  (forall vm_uuid, P (delete_request self vm_uuid)) ->
  (forall task_uuid, P (poll_request self task_uuid)) ->
  Forall P (cleanup_turn_requests self vm_name i turn).
Proof.
  intros Hresolve Hdelete Hpoll. destruct turn as [[vm_uuid task_uuid] polls].
  cbn. do 2 (constructor; [done|]). by apply Forall_replicate.
Qed.

Lemma cleanup_requests_all (P : Request -> Prop) (self : RestApiClient)
    (fuel : nat) (vm_name : string) (num_clones : Z) (h : list Request)
    (o : outcome unit) (h' : list Request) :
  (forall name, P (resolve_request self name)) ->
  (forall vm_uuid, P (delete_request self vm_uuid)) ->
  (forall task_uuid, P (poll_request self task_uuid)) ->
  cleanup_clones cluster self fuel vm_name num_clones h = (o, h') ->
  exists sent, h' = h ++ sent /\ Forall P sent.
Proof.
  intros Hresolve Hdelete Hpoll. unfold cleanup_clones.
  rewrite range_seqZ. intros Hrun.
  destruct (cleanup_loop_run self fuel vm_name _ 0 h o h' Hrun)
    as (turns & _ & Hend). cbv zeta in Hend.
  assert (forall i, Forall P (cleanup_requests self vm_name i turns)) as Hdone.
  { clear Hend.
    induction turns as [|turn turns IH]; intros i; [constructor|].
    cbn [cleanup_requests]. apply Forall_app. split; [|apply IH].
    by apply cleanup_turn_requests_all. }
  assert (forall rest : list Request,
            (exists turn,
               rest `prefix_of`
                 cleanup_turn_requests self vm_name
                   (0 + Z.of_nat (length turns)) turn) ->
            h' = (h ++ cleanup_requests self vm_name 0 turns) ++ rest ->
            exists sent, h' = h ++ sent /\ Forall P sent) as Hstopped.
  { intros rest [turn Hprefix] ->. eexists.
    split; [by rewrite <- app_assoc|]. apply Forall_app. split; [done|].
    apply (Forall_prefix_of _ _ _ Hprefix).
    by apply cleanup_turn_requests_all. }
  destruct o as [[]|e|].
  - destruct Hend as [_ ->]. by eexists.
  - destruct Hend as (_ & _ & turn & rest & _ & Hprefix & Hh').
    apply (Hstopped rest); [by exists turn|done].
  - destruct Hend as (_ & _ & turn & rest & _ & Hprefix & Hh').
    apply (Hstopped rest); [by exists turn|done].
Qed.

(** X21. The clone flow never deletes and the cleanup never creates: no
    request of [clone] is a DELETE, and no request of [cleanup] is a POST
    or carries a body. *)
Theorem flows_keep_to_their_methods (FLAGS : Flags) (fuel : nat)
    (c : RestApiClient) (h : list Request) (o : outcome unit)
    (h' : list Request) :
  (clone cluster FLAGS fuel c h = (o, h') ->
   exists sent,
     h' = h ++ sent /\ Forall (fun req => req_method req <> DELETE) sent)
  /\ (cleanup cluster FLAGS fuel c h = (o, h') ->
      exists sent,
        h' = h ++ sent
        /\ Forall (fun req => req_method req <> POST /\ req_data req = None)
             sent).
Proof.
  split.
  - by apply clone_requests_all.
  - unfold cleanup. destruct (vm_name FLAGS) as [name|].
    + by apply cleanup_requests_all.
    + intros [= <- <-]. exists []. by rewrite app_nil_r.
Qed.

Lemma string_app_assoc (a b c : string) : (a +:+ b) +:+ c = a +:+ b +:+ c.
Proof.
  induction a as [|x a IH]; [done|].
  change (String x ((a +:+ b) +:+ c) = String x (a +:+ b +:+ c)).
  by rewrite IH.
Qed.

Lemma acro_url_to_cluster (ip user pass path : string) :
  exists rest,
    acro_url (__init__ ip user pass) path [] = "https://" +:+ ip +:+ ":9440/"
                                               +:+ rest.
Proof.
  exists ("api/nutanix/v0.8" +:+ "/" +:+ path).
  unfold acro_url, _url, __init__. cbn [base_acro_url].
  by rewrite !string_app_assoc.
Qed.

Lemma pg_url_to_cluster (ip user pass path : string)
    (param : string * string) (params : list (string * string)) :
  exists rest,
    pg_url (__init__ ip user pass) path (param :: params)
    = "https://" +:+ ip +:+ ":9440/" +:+ rest.
Proof.
  exists ("PrismGateway/services/rest/v1" +:+ "/" +:+ path +:+ "?"
          +:+ urlencode (param :: params)).
  unfold pg_url, _url, __init__. cbn [base_pg_url].
  by rewrite !string_app_assoc.
Qed.

(** X22. Every request of a run of [main] goes to the cluster given on the
    command line, over HTTPS on port 9440: in either mode the script
    contacts no other host. *)
Theorem main_requests_to_cluster (FLAGS : Flags) (fuel : nat) (ip : string)
    (h : list Request) (o : outcome unit) (h' : list Request) :
  flag_cluster_ip FLAGS = Some ip ->
  main cluster FLAGS fuel h = (o, h') ->
  exists sent, h' = h ++ sent /\ Forall (to_cluster ip) sent.
Proof.
  intros Hip. unfold main. rewrite Hip.
  assert (forall A (e : exn) (o0 : outcome A) h0,
            raise e h = (o0, h0) ->
            exists sent, h0 = h ++ sent /\ Forall (to_cluster ip) sent)
    as Hraise.
  { intros A e o0 h0 [= <- <-]. exists []. by rewrite app_nil_r. }
  destruct (action FLAGS) as [act|]; [|apply Hraise].
  set (c := __init__ ip (flag_username FLAGS) (flag_password FLAGS)).
  assert (forall task_uuid, to_cluster ip (poll_request c task_uuid))
    as Hpoll by (intros; apply acro_url_to_cluster).
  assert (forall name, to_cluster ip (resolve_request c name))
    as Hresolve by (intros; apply pg_url_to_cluster).
  destruct (String.eqb act "clone").
  { apply clone_requests_all; try done; intros; apply acro_url_to_cluster. }
  destruct (String.eqb act "cleanup"); [|apply Hraise].
  unfold cleanup. destruct (vm_name FLAGS) as [name|]; [|apply Hraise].
  apply cleanup_requests_all; try done. intros; apply acro_url_to_cluster.
Qed.

Lemma deletions_app (l1 l2 : list Request) :
  deletions (l1 ++ l2) = (deletions l1 + deletions l2)%nat.
Proof. unfold deletions. by rewrite filter_app, length_app. Qed.

Lemma deletions_polls (self : RestApiClient) (task_uuid : value)
    (polls : nat) :
  deletions (replicate polls (poll_request self task_uuid)) = 0%nat.
Proof. induction polls as [|polls IH]; [done|exact IH]. Qed.

Lemma deletions_turn (self : RestApiClient) (vm_name : string) (i : Z)
    (turn : string * value * nat) :
  deletions (cleanup_turn_requests self vm_name i turn) = 1%nat.
Proof.
  destruct turn as [[vm_uuid task_uuid] polls].
  change (cleanup_turn_requests self vm_name i (vm_uuid, task_uuid, polls))
    with ([resolve_request self (vm_name +:+ "-" +:+ Py.str_int i);
           delete_request self vm_uuid]
          ++ replicate polls (poll_request self task_uuid)).
  rewrite deletions_app, deletions_polls. reflexivity.
Qed.

Lemma deletions_turns (self : RestApiClient) (vm_name : string) (i : Z)
    (turns : list (string * value * nat)) :
  deletions (cleanup_requests self vm_name i turns) = length turns.
Proof.
  revert i. induction turns as [|turn turns IH]; intros i; [done|].
  cbn [cleanup_requests length].
  by rewrite deletions_app, deletions_turn, IH.
Qed.

Lemma deletions_prefix (l1 l2 : list Request) :
  l1 `prefix_of` l2 -> (deletions l1 <= deletions l2)%nat.
Proof. intros [k ->]. rewrite deletions_app. lia. Qed.

(** X23. The cleanup asks for at most [num_clones] deletions, whatever the
    cluster answers, and for exactly [num_clones] (none for a count below
    zero) when it returns. *)
Theorem cleanup_clones_deletions (self : RestApiClient) (fuel : nat)
    (vm_name : string) (num_clones : Z) (h : list Request)
    (o : outcome unit) (h' : list Request) :
  cleanup_clones cluster self fuel vm_name num_clones h = (o, h') ->
  exists sent,
    h' = h ++ sent
    /\ (deletions sent <= Z.to_nat num_clones)%nat
    /\ (o = Returns tt -> deletions sent = Z.to_nat num_clones).
Proof.
  unfold cleanup_clones. rewrite range_seqZ. intros Hrun.
  destruct (cleanup_loop_run self fuel vm_name _ 0 h o h' Hrun)
    as (turns & _ & Hend). cbv zeta in Hend.
  assert (forall turn rest,
            (length turns < Z.to_nat num_clones)%nat ->
            rest `prefix_of`
              cleanup_turn_requests self vm_name
                (0 + Z.of_nat (length turns)) turn ->
            (deletions (cleanup_requests self vm_name 0 turns ++ rest)
             <= Z.to_nat num_clones)%nat) as Hstopped.
  { intros turn rest Hlt Hprefix%deletions_prefix.
    rewrite deletions_turn in Hprefix.
    rewrite deletions_app, deletions_turns. lia. }
  destruct o as [[]|e|].
  - destruct Hend as [Hlength ->]. eexists. split; [done|].
    rewrite deletions_turns. split; [lia|done].
  - destruct Hend as (Hlt & _ & turn & rest & _ & Hprefix & ->).
    eexists. split; [by rewrite <- app_assoc|]. split; [eauto|done].
  - destruct Hend as (Hlt & _ & turn & rest & _ & Hprefix & ->).
    eexists. split; [by rewrite <- app_assoc|]. split; [eauto|done].
Qed.

(** A turn that ran to its end, as a run of the loop body. *)
Lemma cleanup_turn_done_body (self : RestApiClient) (fuel : nat)
    (vm_name : string) (i : Z) (h : list Request)
    (turn : string * value * nat) :
  cleanup_turn_done cluster self fuel vm_name i h turn ->
  cleanup_clones_body cluster self fuel vm_name i h
  = (Returns tt, h ++ cleanup_turn_requests self vm_name i turn).
Proof.
  destruct turn as [[vm_uuid task_uuid] polls].
  intros (Hresolve & (r & Hreply & Htask) & Hpoll & _).
  set (name := vm_name +:+ "-" +:+ Py.str_int i) in *.
  assert (h ++ [resolve_request self name; delete_request self vm_uuid]
          = (h ++ [resolve_request self name])
            ++ [delete_request self vm_uuid]) as Hsplit
    by (by rewrite <- app_assoc).
  rewrite Hsplit in Hreply, Hpoll.
  unfold cleanup_clones_body. fold name. unfold bind at 1. rewrite Hresolve.
  change (session_delete cluster _)
    with (send cluster (delete_request self vm_uuid)).
  rewrite bind_send_Responded with (r := r) by done.
  match goal with
  | |- context [raise_if _ ?e] =>
      pose proof (bind_submitted_task r e (poll_task cluster self fuel)
                    ((h ++ [resolve_request self name])
                     ++ [delete_request self vm_uuid])) as Hsub
  end.
  cbv zeta in Hsub. rewrite Htask in Hsub. by rewrite Hsub.
Qed.

(** The loop after turns that ran to their ends: it goes on with the next
    clone, from the requests those turns sent. *)
Lemma cleanup_loop_resume (self : RestApiClient) (fuel : nat)
    (vm_name : string) (turns : list (string * value * nat)) (n : nat)
    (i : Z) (h : list Request) :
  cleanup_turns_done cluster self fuel vm_name i h turns ->
  for_each (seqZ i (Z.of_nat (length turns + n)))
    (cleanup_clones_body cluster self fuel vm_name) h
  = for_each (seqZ (i + Z.of_nat (length turns)) (Z.of_nat n))
      (cleanup_clones_body cluster self fuel vm_name)
      (h ++ cleanup_requests self vm_name i turns).
Proof.
  revert i h. induction turns as [|turn turns IH]; intros i h.
  - intros _. cbn. by rewrite Z.add_0_r, app_nil_r.
  - intros [Hturn Hturns].
    cbn [length Nat.add cleanup_requests]. rewrite seqZ_succ.
    cbn [for_each]. unfold bind at 1.
    rewrite (cleanup_turn_done_body _ _ _ _ _ _ Hturn).
    rewrite (IH _ _ Hturns), <- app_assoc. do 2 f_equal. lia.
Qed.

(** X24. When every turn runs to its end (each name resolves, each
    deletion is accepted, each task completes), the cleanup returns,
    having sent the requests of the [num_clones] turns in order and nothing
    else. *)
Theorem cleanup_clones_all_turns (self : RestApiClient) (fuel : nat)
    (vm_name : string) (num_clones : Z) (h : list Request)
    (turns : list (string * value * nat)) :
  cleanup_turns_done cluster self fuel vm_name 0 h turns ->
  length turns = Z.to_nat num_clones ->
  cleanup_clones cluster self fuel vm_name num_clones h
  = (Returns tt, h ++ cleanup_requests self vm_name 0 turns).
Proof.
  intros Hturns Hlength. unfold cleanup_clones.
  rewrite range_seqZ, <- Hlength.
  replace (length turns) with (length turns + 0)%nat at 1 by lia.
  by rewrite (cleanup_loop_resume self fuel vm_name turns 0 0 h Hturns).
Qed.

(** X25. A clone that is not there stops the cleanup: when, after some
    turns that ran to their ends, the name query of the next clone is
    answered with an empty entity list, the cleanup raises [IndexError]
    right after that query. That clone and the later ones get no deletion
    request. *)
Theorem cleanup_clones_missing_clone (self : RestApiClient) (fuel : nat)
    (vm_name : string) (num_clones : Z) (h : list Request)
    (turns : list (string * value * nat)) (r : Response)
    (obj metadata count : value) :
  let done := h ++ cleanup_requests self vm_name 0 turns in
  let name := vm_name +:+ "-" +:+ Py.str_int (Z.of_nat (length turns)) in
  cleanup_turns_done cluster self fuel vm_name 0 h turns ->
  (length turns < Z.to_nat num_clones)%nat ->
  cluster (done ++ [resolve_request self name]) = Responded r ->
  status_code r = codes_ok ->
  json r = Some obj ->
  Py.getitem obj "metadata" = Ok metadata ->
  Py.getitem metadata "count" = Ok count ->
  Py.getitem obj "entities" = Ok (VList []) ->
  cleanup_clones cluster self fuel vm_name num_clones h
  = (Raises IndexError, done ++ [resolve_request self name]).
Proof.
  intros done name Hturns Hlt Hreply Hstatus Hjson Hmeta Hcount Hentities.
  unfold cleanup_clones. rewrite range_seqZ.
  replace (Z.to_nat num_clones)
    with (length turns + S (Z.to_nat num_clones - S (length turns)))%nat
    by lia.
  rewrite (cleanup_loop_resume self fuel vm_name turns _ 0 h Hturns).
  fold done. rewrite seqZ_succ. cbn [for_each]. unfold bind at 1.
  unfold cleanup_clones_body. unfold bind at 1.
  rewrite Z.add_0_l. fold name.
  pose proof (resolve_vm_uuid_counted self name 0 done r obj metadata count)
    as ->; try done.
  cbn [Z.eqb negb]. rewrite bind_ret, Hentities. reflexivity.
Qed.

End ClientProofs.

(** * Worked examples *)

#[local] Existing Instance Example.lib.

Example example_resolve_url :
  req_url (resolve_request Example.client "web01")
  = "https://10.0.0.1:9440/PrismGateway/services/rest/v1/vms?filterCriteria=vm_name%3D%3Dweb01".
Proof. vm_compute. reflexivity. Qed.

Example example_strip :
  _strip_empty_fields
    (Example.dict [("a", VInt 0); ("b", VList [VInt 0; VStr "x"]);
                   ("c", Example.dict [("d", VList [])])])
  = Example.dict [("b", VList [VStr "x"])].
Proof. vm_compute. reflexivity. Qed.

(** The unique match: the identifier is what follows the last [":"]. *)
Lemma resolve_vm_uuid_checks_count_witness :
  exists vm_uuid,
    resolve_vm_uuid (Example.scripted [Example.ok (Example.found "0005::4f1a")])
      Example.client "web01" 1 []
    = (Returns vm_uuid, [resolve_request Example.client "web01"])
    /\ suffix_after_last ":" "0005::4f1a" vm_uuid.
Proof.
  destruct (resolve_vm_uuid_checks_count
              (Example.scripted [Example.ok (Example.found "0005::4f1a")])
              Example.client "web01" 1 []
              {| status_code := 200;
                 json := Some (Example.found "0005::4f1a") |}
              (Example.found "0005::4f1a")
              (Example.dict [("count", VInt 1)]) 1)
    as (_ & _ & Hone); [lia|reflexivity..|].
  apply (Hone eq_refl (VList [Example.dict [("vmId", VStr "0005::4f1a")]])
           (Example.dict [("vmId", VStr "0005::4f1a")])); reflexivity.
Defined.

(** Three clones of web01. *)
Lemma construct_vm_clone_proto_count_and_names_witness :
  exists specs,
    construct_vm_clone_proto "4f1a" Example.web01_info 3
    = Ok (VDict {[ "specList" := VList specs ]})
    /\ Z.of_nat (length specs) = 3
    /\ forall i, 0 <= i < 3 ->
         exists spec,
           specs !! Z.to_nat i = Some spec
           /\ Py.getitem spec "name"
              = Ok (VStr (("web01" +:+ "-") +:+ Py.str_int i)).
Proof.
  apply (construct_vm_clone_proto_count_and_names "4f1a" Example.web01_info
           Example.web01_config (VInt 2) (VInt 4096) "web01" 3);
    [reflexivity..|lia].
Defined.

(** Two pending polls, then the completion: with no error the poll
    returns, with an error it raises the task failure. *)
Lemma poll_task_first_completion_witness :
  let req := poll_request Example.client (VStr "t-1") in
  let pending := Example.ok Example.poll_pending in
  poll_task (Example.scripted [pending; pending; Example.ok Example.poll_done])
    Example.client 5 (VStr "t-1") []
  = (Returns tt, [req; req; req])
  /\ poll_task
       (Example.scripted [pending; pending; Example.ok Example.poll_failed])
       Example.client 5 (VStr "t-1") []
     = (Raises (TaskFailedError (VStr "t-1") (VStr "kInvalidState")
                  (VStr "vm is busy")),
        [req; req; req]).
Proof.
  assert (omits_completion
            {| status_code := 200; json := Some Example.poll_pending |})
    as Homits.
  { split; [reflexivity|]. by eexists _, _. }
  assert (forall last j, (j < 2)%nat ->
            exists rj,
              Example.scripted
                [Example.ok Example.poll_pending;
                 Example.ok Example.poll_pending; last]
                ([] ++ replicate (S j)
                         (poll_request Example.client (VStr "t-1")))
              = Responded rj
              /\ omits_completion rj) as Hbefore.
  { intros last [|[|j]] Hj; [by eexists..|lia]. }
  split.
  - apply (poll_task_first_completion
             (Example.scripted [Example.ok Example.poll_pending;
                                Example.ok Example.poll_pending;
                                Example.ok Example.poll_done])
             Example.client (VStr "t-1") 5 2 []
             {| status_code := 200; json := Some Example.poll_done |}
             (Example.dict [("error", VStr "kNoError")]) (VStr "kNoError"));
      [lia|apply Hbefore|reflexivity|by split|reflexivity..].
  - apply (poll_task_first_completion
             (Example.scripted [Example.ok Example.poll_pending;
                                Example.ok Example.poll_pending;
                                Example.ok Example.poll_failed])
             Example.client (VStr "t-1") 5 2 []
             {| status_code := 200; json := Some Example.poll_failed |}
             (Example.dict [("error", VStr "kInvalidState");
                            ("errorDetail", VStr "vm is busy")])
             (VStr "kInvalidState"));
      [lia|apply Hbefore|reflexivity|by split|reflexivity|discriminate
      |reflexivity].
Defined.

(** Cleaning up two clones of web01 when the query for the first name has
    two matches: the first match is deleted, and the run makes its two
    turns, each a resolution, a deletion and the polls of its task. With
    three clones asked for and the second one not there, the run stops in
    the second turn on the [IndexError] of the resolution, not on the
    not-found exception. *)
Lemma cleanup_clones_in_order_witness :
  let cluster :=
    Example.scripted
      [Example.ok Example2.found_twice; Example.ok (Example.task "t-0");
       Example.ok Example.poll_done;
       Example.ok (Example.found "0005::bb"); Example.ok (Example.task "t-1");
       Example.ok Example.poll_pending; Example.ok Example.poll_done] in
  let sent :=
    cleanup_requests Example.client "web01" 0
      [("aa", VStr "t-0", 1%nat); ("bb", VStr "t-1", 2%nat)] in
  let stopped :=
    cleanup_requests Example.client "web01" 0 [("aa", VStr "t-0", 1%nat)]
    ++ [resolve_request Example.client "web01-1"] in
  (cleanup_clones cluster Example.client 5 "web01" 2 [] = (Returns tt, sent)
   /\ exists turns,
        cleanup_turns_done cluster Example.client 5 "web01" 0 [] turns
        /\ length turns = 2%nat
        /\ sent = cleanup_requests Example.client "web01" 0 turns)
  /\ (cleanup_clones Example2.one_clone_only Example.client 5 "web01" 3 []
      = (Raises IndexError, stopped)
      /\ not_count_error IndexError
      /\ exists turns,
           cleanup_turns_done Example2.one_clone_only Example.client 5
             "web01" 0 [] turns
           /\ (length turns < 3)%nat
           /\ cleanup_turn_stopped Example2.one_clone_only Example.client 5
                "web01" (Z.of_nat (length turns))
                (cleanup_requests Example.client "web01" 0 turns)
                (Raises IndexError) stopped).
Proof.
  intros cluster sent stopped. split.
  - assert (cleanup_clones cluster Example.client 5 "web01" 2 []
            = (Returns tt, sent)) as Hrun by (vm_compute; reflexivity).
    split; [exact Hrun|].
    destruct (cleanup_clones_in_order cluster Example.client 5 "web01" 2 []
                (Returns tt) sent Hrun)
      as [(turns & Hdone & Hlength & Hsent) _].
    by exists turns.
  - assert (cleanup_clones Example2.one_clone_only Example.client 5 "web01" 3
              [] = (Raises IndexError, stopped)) as Hrun
      by (vm_compute; reflexivity).
    split; [exact Hrun|].
    destruct (cleanup_clones_in_order Example2.one_clone_only Example.client
                5 "web01" 3 [] (Raises IndexError) stopped Hrun)
      as [(turns & Hdone & Hlength & _ & Hstopped & _) Hraises].
    split; [by apply Hraises|]. by exists turns.
Defined.

(** Cloning web01 three times: one resolution, one descriptor, one clone
    request with three specifications, the polls of one task. *)
Lemma clone_sends_one_batch_witness :
  let cluster :=
    Example.scripted
      [Example.ok (Example.found "0005::4f1a"); Example.ok Example.web01_info;
       Example.ok (Example.task "t-1");
       Example.ok Example.poll_pending; Example.ok Example.poll_done] in
  let FLAGS := Example.flags (Some "clone") (Some "web01") 3 in
  let built :=
    VDict {[ "specList" :=
      VList (clone_spec (vm_clone_proto_literal (VInt 2) (VStr "web01")
                           (VInt 4096)) "web01"
             <$> Py.range 0 3) ]} in
  let h' :=
    clone_flow_requests Example.client "web01" "4f1a" built (VStr "t-1") 2 in
  clone cluster FLAGS 5 Example.client [] = (Returns tt, h')
  /\ exists vm_uuid cloneSpec task_uuid polls specs,
       h' = clone_flow_requests Example.client "web01" vm_uuid cloneSpec
              task_uuid polls
       /\ (1 <= polls)%nat
       /\ cloneSpec = VDict {[ "specList" := VList specs ]}
       /\ length specs = 3%nat.
Proof.
  intros cluster FLAGS built h'.
  assert (clone cluster FLAGS 5 Example.client [] = (Returns tt, h'))
    as Hrun by (vm_compute; reflexivity).
  split; [exact Hrun|].
  destruct (clone_sends_one_batch cluster FLAGS 5 Example.client "web01" []
              (Returns tt) h' eq_refl Hrun)
    as (vm_uuid & cloneSpec & task_uuid & polls & sent & Hh' & _ & Hreturns).
  destruct (Hreturns eq_refl)
    as (Hsent & Hpolls & _ & vm_info & specs & _ & _ & HcloneSpec & Hlength
        & _).
  exists vm_uuid, cloneSpec, task_uuid, polls, specs.
  rewrite Hh', Hsent. by repeat split.
Defined.

(** No match and no uniqueness check: taking the first entity fails. *)
Lemma resolve_vm_uuid_unchecked_empty_witness :
  resolve_vm_uuid (Example.scripted [Example.ok Example.not_found])
    Example.client "web01-0" 0 []
  = (Raises IndexError, [resolve_request Example.client "web01-0"]).
Proof.
  apply (resolve_vm_uuid_unchecked_empty
           (Example.scripted [Example.ok Example.not_found])
           Example.client "web01-0" []
           {| status_code := 200; json := Some Example.not_found |}
           Example.not_found (Example.dict [("count", VInt 0)]) (VInt 0));
    reflexivity.
Defined.

(** A task that stays pending: seven turns of budget, seven polls. *)
Lemma poll_task_pending_is_the_only_way_on_witness :
  let req := poll_request Example.client (VStr "t-1") in
  poll_task (fun _ => Example.ok Example.poll_pending) Example.client 7
    (VStr "t-1") []
  = (OutOfFuel, replicate 7 req).
Proof.
  exact (proj2 (poll_task_pending_is_the_only_way_on
                  (fun _ => Example.ok Example.poll_pending)
                  Example.client (VStr "t-1"))
           (fun h => eq_refl) 7%nat []).
Defined.

(** A successful response that has the completion field, as [null]: the
    loop does not end on it but polls again. *)
Lemma null_completion_field_polls_again :
  let req := poll_request Example.client (VStr "t-1") in
  completes_with {| status_code := 200; json := Some Example.poll_null |}
    VNone
  /\ poll_task (fun _ => Example.ok Example.poll_null) Example.client 2
       (VStr "t-1") []
     = (OutOfFuel, [req; req]).
Proof. split; [split|]; vm_compute; reflexivity. Qed.

(** No VM name: nothing is sent, in either mode. *)
Lemma main_rejects_bad_invocation_witness :
  let cluster := Example.scripted [] in
  let FLAGS := Example.flags (Some "cleanup") None 3 in
  (forall c, clone cluster FLAGS 5 c [] = (Raises AssertionError, []))
  /\ (forall c, cleanup cluster FLAGS 5 c [] = (Raises AssertionError, []))
  /\ exists e, main cluster FLAGS 5 [] = (Raises e, [])
               /\ InvalidArgumentError e.
Proof.
  intros cluster FLAGS.
  apply (proj1 (main_rejects_bad_invocation cluster FLAGS 5 [])).
  reflexivity.
Defined.

(** The three specifications built for web01. *)
Lemma construct_vm_clone_proto_fixed_fields_witness :
  exists specs,
    construct_vm_clone_proto "4f1a" Example.web01_info 3
    = Ok (VDict {[ "specList" := VList specs ]})
    /\ length specs = 3%nat
    /\ Forall fixed_fields specs.
Proof.
  apply (proj2 (construct_vm_clone_proto_fixed_fields "4f1a"
                  Example.web01_info 3)
           Example.web01_config (VInt 2) (VInt 4096) "web01");
    reflexivity.
Defined.

(** ** More worked examples *)

Lemma construct_vm_clone_proto_full_specs_witness :
  construct_vm_clone_proto "4f1a" Example.web01_info 3
  = Ok (VDict {[ "specList" :=
         VList (full_clone_spec (VInt 2) (VInt 4096) "web01"
                <$> Py.range 0 3) ]}).
Proof.
  apply (construct_vm_clone_proto_full_specs "4f1a" Example.web01_info
           Example.web01_config (VInt 2) (VInt 4096) "web01" 3);
    first [reflexivity | constructor].
Defined.

Lemma construct_vm_clone_proto_drops_falsy_witness :
  exists specs,
    construct_vm_clone_proto "4f1a" Example2.idle_info 2
    = Ok (VDict {[ "specList" := VList specs ]})
    /\ Forall (fun spec => Py.getitem spec "numVcpus" = Err KeyError) specs
    /\ Forall (fun spec => Py.getitem spec "memoryMb" = Err KeyError) specs.
Proof.
  destruct (construct_vm_clone_proto_drops_falsy "4f1a" Example2.idle_info
              (Example.dict [("numVcpus", VInt 0); ("memoryMb", VNone);
                             ("name", VStr "idle")])
              (VInt 0) VNone "idle" 2)
    as (specs & Hbuilt & Hcpu & Hmem); [reflexivity..|].
  exists specs. split; [exact Hbuilt|]. split; [by apply Hcpu|by apply Hmem].
Defined.

Lemma construct_vm_clone_proto_no_clones_witness :
  construct_vm_clone_proto "4f1a" Example2.numbered_info (-1)
  = Ok (VDict {[ "specList" := VList [] ]}).
Proof.
  apply (construct_vm_clone_proto_no_clones "4f1a" Example2.numbered_info
           (Example.dict [("numVcpus", VInt 2); ("memoryMb", VInt 4096);
                          ("name", VInt 7)])
           (VInt 2) (VInt 7) (VInt 4096) (-1)); [reflexivity..|lia].
Defined.

Lemma construct_vm_clone_proto_name_not_text_witness :
  construct_vm_clone_proto "4f1a" Example2.numbered_info 1 = Err TypeError.
Proof.
  apply (construct_vm_clone_proto_name_not_text "4f1a" Example2.numbered_info
           (Example.dict [("numVcpus", VInt 2); ("memoryMb", VInt 4096);
                          ("name", VInt 7)])
           (VInt 2) (VInt 7) (VInt 4096) 1);
    [reflexivity..|discriminate|lia].
Defined.

Lemma construct_vm_clone_proto_missing_key_witness :
  construct_vm_clone_proto "4f1a"
    (Example.dict [("config", Example.dict [("name", VStr "web01")])]) 0
  = Err KeyError.
Proof.
  apply (construct_vm_clone_proto_missing_key "4f1a" _
           (list_to_map [("name", VStr "web01")]) 0).
  right. split; [reflexivity|]. left. reflexivity.
Defined.

Lemma construct_vm_clone_proto_names_differ_witness :
  exists specs,
    construct_vm_clone_proto "4f1a" Example.web01_info 3
    = Ok (VDict {[ "specList" := VList specs ]})
    /\ forall (a b : nat) spec_a spec_b,
         specs !! a = Some spec_a -> specs !! b = Some spec_b ->
         Py.getitem spec_a "name" = Py.getitem spec_b "name" ->
         a = b.
Proof.
  apply (construct_vm_clone_proto_names_differ "4f1a" Example.web01_info
           Example.web01_config (VInt 2) (VInt 4096) "web01" 3);
    reflexivity.
Defined.

Lemma resolve_vm_uuid_unchecked_first_witness :
  exists vm_uuid,
    resolve_vm_uuid (Example.scripted [Example.ok Example2.found_twice])
      Example.client "web01-0" 0 []
    = (Returns vm_uuid, [resolve_request Example.client "web01-0"])
    /\ suffix_after_last ":" "0005::aa" vm_uuid.
Proof.
  apply (resolve_vm_uuid_unchecked_first
           (Example.scripted [Example.ok Example2.found_twice])
           Example.client "web01-0" []
           {| status_code := 200; json := Some Example2.found_twice |}
           Example2.found_twice (Example.dict [("count", VInt 2)]) (VInt 2)
           (VList [Example.dict [("vmId", VStr "0005::aa")];
                   Example.dict [("vmId", VStr "0005::bb")]])
           (Example.dict [("vmId", VStr "0005::aa")]) "0005::aa");
    reflexivity.
Defined.

Lemma resolve_vm_uuid_needs_count_witness :
  resolve_vm_uuid
    (Example.scripted
       [Example.ok (Example.dict [("entities", VList [])])])
    Example.client "web01-0" 0 []
  = (Raises KeyError, [resolve_request Example.client "web01-0"]).
Proof.
  apply (resolve_vm_uuid_needs_count
           (Example.scripted
              [Example.ok (Example.dict [("entities", VList [])])])
           Example.client "web01-0" 0 []
           {| status_code := 200;
              json := Some (Example.dict [("entities", VList [])]) |}
           (list_to_map [("entities", VList [])]) ∅);
    [reflexivity..|].
  left. reflexivity.
Defined.

Lemma get_vm_info_outcome_witness :
  get_vm_info (Example.scripted [Example2.status 404]) Example.client "4f1a"
    []
  = (Raises (Exception
       "GET https://10.0.0.1:9440/api/nutanix/v0.8/vms/4f1a: 404"),
     [info_request Example.client "4f1a"]).
Proof.
  exact (get_vm_info_outcome (Example.scripted [Example2.status 404])
           Example.client "4f1a" []
           {| status_code := 404; json := None |} eq_refl).
Defined.

Lemma poll_task_http_error_witness :
  let req := poll_request Example.client (VStr "t-1") in
  poll_task
    (Example.scripted [Example.ok Example.poll_pending; Example2.status 503])
    Example.client 5 (VStr "t-1") []
  = (Raises (Exception
       "GET https://10.0.0.1:9440/api/nutanix/v0.8/tasks/t-1/poll: 503"),
     [req; req]).
Proof.
  apply (proj1 (poll_task_http_error
                  (Example.scripted
                     [Example.ok Example.poll_pending; Example2.status 503])
                  Example.client (VStr "t-1") 5 1 []
                  ltac:(lia)
                  ltac:(intros [|j] Hj; [reflexivity|lia]))
           {| status_code := 503; json := None |});
    [reflexivity|discriminate].
Defined.

Lemma poll_task_malformed_completion_witness :
  poll_task (Example.scripted [Example.ok Example2.poll_empty_completion])
    Example.client 1 (VStr "t-1") []
  = (Raises KeyError, [poll_request Example.client (VStr "t-1")]).
Proof.
  apply (proj1 (poll_task_malformed_completion
                  (Example.scripted
                     [Example.ok Example2.poll_empty_completion])
                  Example.client (VStr "t-1") 0 []
                  {| status_code := 200;
                     json := Some Example2.poll_empty_completion |}
                  (Example.dict [])
                  eq_refl (conj eq_refl eq_refl) ltac:(discriminate))
           ∅); reflexivity.
Defined.

Lemma cleanup_clones_no_clones_witness :
  cleanup_clones (Example.scripted []) Example.client 5 "web01" 0 []
  = (Returns tt, []).
Proof.
  apply (cleanup_clones_no_clones (Example.scripted []) Example.client 5
           "web01" 0 []). lia.
Defined.

Lemma create_clones_bad_descriptor_witness :
  create_clones (Example.scripted []) Example.client 5 "4f1a"
    (Example.dict []) 3 []
  = (Raises KeyError, []).
Proof.
  apply (create_clones_bad_descriptor (Example.scripted []) Example.client 5
           "4f1a" (Example.dict []) 3 KeyError []).
  reflexivity.
Defined.

Lemma create_clones_no_clones_witness :
  exists o rest,
    create_clones (Example.scripted [Example.ok (Example.task "t-1")])
      Example.client 5 "4f1a" Example.web01_info 0 []
    = (o, clone_request Example.client "4f1a"
            (VDict {[ "specList" := VList [] ]}) :: rest).
Proof.
  apply (create_clones_no_clones
           (Example.scripted [Example.ok (Example.task "t-1")])
           Example.client 5 "4f1a" Example.web01_info Example.web01_config
           (VInt 2) (VStr "web01") (VInt 4096) 0 []);
    [reflexivity..|lia].
Defined.

Lemma main_requests_to_cluster_witness :
  exists sent,
    (main Example2.two_clones (Example.flags (Some "cleanup") (Some "web01") 2)
       5 []).2
    = [] ++ sent
    /\ Forall (to_cluster "10.0.0.1") sent.
Proof.
  destruct (main Example2.two_clones
              (Example.flags (Some "cleanup") (Some "web01") 2) 5 [])
    as [o h'] eqn:Hrun.
  exact (main_requests_to_cluster Example2.two_clones
           (Example.flags (Some "cleanup") (Some "web01") 2) 5 "10.0.0.1" []
           o h' eq_refl Hrun).
Defined.

Lemma cleanup_clones_deletions_witness :
  exists sent,
    cleanup_requests Example.client "web01" 0
      [("aa", VStr "t-0", 1%nat); ("bb", VStr "t-1", 2%nat)]
    = [] ++ sent
    /\ (deletions sent <= 2)%nat
    /\ (Returns tt = Returns tt -> deletions sent = 2%nat).
Proof.
  apply (cleanup_clones_deletions Example2.two_clones Example.client 5 "web01"
           2 [] (Returns tt)).
  vm_compute. reflexivity.
Defined.

Lemma cleanup_turns_done_two_clones :
  cleanup_turns_done Example2.two_clones Example.client 5 "web01" 0 []
    [("aa", VStr "t-0", 1%nat); ("bb", VStr "t-1", 2%nat)].
Proof.
  repeat split;
    first [ vm_compute; reflexivity
          | lia
          | eexists; split; vm_compute; reflexivity ].
Qed.

Lemma cleanup_clones_all_turns_witness :
  cleanup_clones Example2.two_clones Example.client 5 "web01" 2 []
  = (Returns tt,
     cleanup_requests Example.client "web01" 0
       [("aa", VStr "t-0", 1%nat); ("bb", VStr "t-1", 2%nat)]).
Proof.
  apply (cleanup_clones_all_turns Example2.two_clones Example.client 5 "web01"
           2 [] [("aa", VStr "t-0", 1%nat); ("bb", VStr "t-1", 2%nat)]);
    [apply cleanup_turns_done_two_clones|reflexivity].
Defined.

Lemma cleanup_turns_done_one_clone :
  cleanup_turns_done Example2.one_clone_only Example.client 5 "web01" 0 []
    [("aa", VStr "t-0", 1%nat)].
Proof.
  repeat split;
    first [ vm_compute; reflexivity
          | lia
          | eexists; split; vm_compute; reflexivity ].
Qed.

Lemma cleanup_clones_missing_clone_witness :
  cleanup_clones Example2.one_clone_only Example.client 5 "web01" 3 []
  = (Raises IndexError,
     cleanup_requests Example.client "web01" 0 [("aa", VStr "t-0", 1%nat)]
     ++ [resolve_request Example.client "web01-1"]).
Proof.
  apply (cleanup_clones_missing_clone Example2.one_clone_only Example.client 5
           "web01" 3 [] [("aa", VStr "t-0", 1%nat)]
           {| status_code := 200; json := Some Example.not_found |}
           Example.not_found (Example.dict [("count", VInt 0)]) (VInt 0)
           cleanup_turns_done_one_clone);
    first [ reflexivity | cbn; lia ].
Defined.
